(** * asciitable: the read pipeline and the format guesser

    A shallow embedding of [asciitable.py] (the stages of [BaseReader.read])
    and of [asciitable/ui.py] (the guesser [_guess]), with the properties of
    the specification stated over it.

    Conventions of the embedding
    - a Python exception is a value of [exn]; code that may raise returns
      [result A];
    - a generator is a [gen A]: the items it yields, in order, and the
      exception (if any) that ends it;
    - a dict with string keys is a [gmap string _], a set of names a
      [gset string];
    - library calls ([re], [csv], [int], [float]) are taken as functions of
      the right type; concrete instances are given for the evaluations. *)

From Stdlib Require Import ZArith Ascii String List Bool Lia.
From stdpp Require Import base option list strings pretty gmap sets.

Local Open Scope string_scope.
Local Open Scope list_scope.

#[local] Set Warnings "-clear-no-such-hyp".

(* ===================================================================== *)
(** * Python values, exceptions and built-ins *)
(* ===================================================================== *)

Module Py.

(** The format arguments of the two [InconsistentTableError] messages of
    [asciitable.py], and the fixed message of the guesser. *)
Inductive ite_msg :=
| FirstLine (n_header n_data : nat) (header_vals data_vals : list string)
| DataLine (n_header n_data i : nat) (header_vals data_vals : list string)
| UnableToGuess.

Inductive exn :=
| InconsistentTableError (m : ite_msg)
| ValueError (m : string)
| TypeError (m : string)
| NameError (name : string)
| UnboundLocalError (name : string)
| IndexError
| StopIteration
| OtherError (cls : string).

Inductive result (A : Type) :=
| Ok (a : A)
| Raise (e : exn).
Arguments Ok {A} a.
Arguments Raise {A} e.

Definition bind {A B} (r : result A) (k : A -> result B) : result B :=
  match r with
  | Ok a => k a
  | Raise e => Raise e
  end.

(** [[f(x) for x in l]] where [f] may raise: the first exception wins. *)
Fixpoint map_result {A B} (f : A -> result B) (l : list A) : result (list B) :=
  match l with
  | [] => Ok []
  | x :: l' =>
      bind (f x) (fun y => bind (map_result f l') (fun ys => Ok (y :: ys)))
  end.

(** A generator: what it yields before it stops, and the exception that
    stops it, if one does. *)
Record gen (A : Type) := Gen { yielded : list A; failure : option exn }.
Arguments Gen {A} yielded failure.
Arguments yielded {A} g.
Arguments failure {A} g.

(** [g.next()] on a fresh generator. *)
Definition gen_next {A} (g : gen A) : result A :=
  match yielded g with
  | x :: _ => Ok x
  | [] => match failure g with
          | Some e => Raise e
          | None => Raise StopIteration
          end
  end.

(** ** Characters and [str] methods *)

Definition chars (s : string) : list ascii := list_ascii_of_string s.
Definition str (l : list ascii) : string := string_of_list_ascii l.

(** The whitespace of [str.strip()] and [str.split()] (ASCII). *)
Definition is_space (c : ascii) : bool :=
  let n := nat_of_ascii c in
  ((n =? 32) || ((9 <=? n) && (n <=? 13)))%nat.

Definition is_digit (c : ascii) : bool :=
  let n := nat_of_ascii c in ((48 <=? n) && (n <=? 57))%nat.

Fixpoint lstrip_chars (l : list ascii) : list ascii :=
  match l with
  | c :: l' => if is_space c then lstrip_chars l' else l
  | [] => []
  end.

Definition rstrip_chars (l : list ascii) : list ascii :=
  rev (lstrip_chars (rev l)).

Definition strip (s : string) : string :=
  str (rstrip_chars (lstrip_chars (chars s))).

(** Truth value of [x.strip()]. *)
Definition nonblank (s : string) : bool :=
  negb (forallb is_space (chars s)).

(** Truth value of a [str]. *)
Definition nonempty (s : string) : bool :=
  match s with EmptyString => false | String _ _ => true end.

(** [s.split()] with no separator: runs of whitespace separate the
    fields, none is empty. *)
Fixpoint split_ws_aux (cur : list ascii) (l : list ascii) : list string :=
  match l with
  | [] => match cur with [] => [] | _ => [str (rev cur)] end
  | c :: l' =>
      if is_space c
      then match cur with
           | [] => split_ws_aux [] l'
           | _ => str (rev cur) :: split_ws_aux [] l'
           end
      else split_ws_aux (c :: cur) l'
  end.

Definition split_ws (s : string) : list string := split_ws_aux [] (chars s).

Fixpoint is_prefix (p l : list ascii) : bool :=
  match p, l with
  | [], _ => true
  | a :: p', b :: l' => Ascii.eqb a b && is_prefix p' l'
  | _ :: _, [] => false
  end.

(** [s.split(sep)] for a non-empty separator: [skip] counts the
    characters of a matched separator still to pass over. *)
Fixpoint split_sep_aux (sep : list ascii) (skip : nat) (cur : list ascii)
  (l : list ascii) : list string :=
  match l with
  | [] => [str (rev cur)]
  | c :: l' =>
      match skip with
      | S k => split_sep_aux sep k cur l'
      | O =>
          if is_prefix sep l
          then str (rev cur) :: split_sep_aux sep (length sep - 1) [] l'
          else split_sep_aux sep 0 (c :: cur) l'
      end
  end.

(** [line.split(delimiter)]: [None] splits on whitespace runs, the empty
    separator is refused. *)
Definition py_split (delimiter : option string) (line : string)
  : result (list string) :=
  match delimiter with
  | None => Ok (split_ws line)
  | Some EmptyString => Raise (ValueError "empty separator")
  | Some sep => Ok (split_sep_aux (chars sep) 0 [] (chars line))
  end.

(** Name resolution for a free name of a function body: the function's
    locals, then the globals of its module. *)
Definition load_name {V} (locals globals : gmap string V) (name : string)
  : result V :=
  match locals !! name with
  | Some v => Ok v
  | None =>
      match globals !! name with
      | Some v => Ok v
      | None => Raise (NameError name)
      end
  end.

(** ** Slices *)

Definition clamp_index (len i : Z) : Z :=
  if (i <? 0)%Z then Z.max 0 (i + len) else Z.min i len.

(** [l[slice(start, stop)]] for [start], [stop] an integer or [None]. *)
Definition py_slice {A} (start stop : option Z) (l : list A) : list A :=
  let len := Z.of_nat (length l) in
  let lo := from_option (clamp_index len) 0%Z start in
  let hi := from_option (clamp_index len) len stop in
  take (Z.to_nat (hi - lo)) (drop (Z.to_nat lo) l).

(** ** [int(x)] and [float(x)] on a [str] *)

Definition drop_sign (l : list ascii) : list ascii :=
  match l with
  | c :: l' => if Ascii.eqb c "+" || Ascii.eqb c "-" then l' else l
  | [] => []
  end.

Definition is_neg (l : list ascii) : bool :=
  match l with
  | c :: _ => Ascii.eqb c "-"
  | [] => false
  end.

Fixpoint span_digits (l : list ascii) : list ascii * list ascii :=
  match l with
  | c :: l' =>
      if is_digit c
      then let '(ds, r) := span_digits l' in (c :: ds, r)
      else ([], l)
  | [] => ([], [])
  end.

Definition digits_value (ds : list ascii) : Z :=
  fold_left (fun acc c => (10 * acc + Z.of_nat (nat_of_ascii c - 48))%Z) ds 0%Z.

(** [int(s)]: surrounding whitespace, an optional sign, decimal digits. *)
Definition py_int (s : string) : option Z :=
  let l := chars (strip s) in
  let body := drop_sign l in
  match span_digits body with
  | ((_ :: _) as ds, []) =>
      Some (if is_neg l then (- digits_value ds)%Z else digits_value ds)
  | _ => None
  end.

Definition lower (c : ascii) : ascii :=
  let n := nat_of_ascii c in
  if ((65 <=? n) && (n <=? 90))%nat then ascii_of_nat (n + 32) else c.

Definition exponent_ok (l : list ascii) : bool :=
  match l with
  | [] => true
  | c :: r =>
      if Ascii.eqb (lower c) "e"
      then match span_digits (drop_sign r) with
           | (_ :: _, []) => true
           | _ => false
           end
      else false
  end.

Definition decimal_ok (l : list ascii) : bool :=
  let '(d1, r1) := span_digits l in
  match r1 with
  | c :: r2 =>
      if Ascii.eqb c "."
      then let '(d2, r3) := span_digits r2 in
           (nonempty (str d1) || nonempty (str d2)) && exponent_ok r3
      else nonempty (str d1) && exponent_ok r1
  | [] => nonempty (str d1)
  end.

(** A parsed float is kept as its literal: the value is the double
    nearest to it, which no property below depends on. *)
Record float_lit := FloatLit { literal : string }.

(** [float(s)]: surrounding whitespace, an optional sign, then [inf],
    [infinity], [nan] (any case) or a decimal with optional exponent. *)
Definition py_float (s : string) : option float_lit :=
  let body := drop_sign (chars (strip s)) in
  let word := str (map lower body) in
  if String.eqb word "inf" || String.eqb word "infinity"
     || String.eqb word "nan" || decimal_ok body
  then Some (FloatLit (strip s))
  else None.

End Py.

#[global] Instance result_ret : MRet Py.result := fun _ a => Py.Ok a.
#[global] Instance result_bind : MBind Py.result := fun _ _ k r => Py.bind r k.

(* ===================================================================== *)
(** * asciitable.py: the stages of the read pipeline *)
(* ===================================================================== *)

Module Core.
Import Py.

(** ** Column *)

(** The typed values of a column after conversion. *)
Inductive col_data :=
| IntData (l : list Z)
| FloatData (l : list float_lit)
| StrData (l : list string).

(** [mask] and [data] are attributes the later stages add. *)
Record Column := mkColumn {
  name : string;
  index : nat;
  str_vals : list string;
  mask : option (list bool);
  data : option col_data
}.

(** [Column(name, index)] *)
Definition Column_init (name : string) (index : nat) : Column :=
  mkColumn name index [] None None.

Definition set_str_vals (c : Column) (v : list string) : Column :=
  mkColumn (name c) (index c) v (mask c) (data c).
Definition set_mask (c : Column) (m : list bool) : Column :=
  mkColumn (name c) (index c) (str_vals c) (Some m) (data c).
Definition set_data (c : Column) (d : col_data) : Column :=
  mkColumn (name c) (index c) (str_vals c) (mask c) (Some d).

(** ** Splitters *)

(** A splitter instance called on lines: a generator of rows. An
    instance of [DefaultSplitter] (built on [csv.reader]) is any such
    function. *)
Definition splitter := list string -> gen (list string).

Record BaseSplitter := mkBaseSplitter {
  process_line : option (string -> string);
  process_val : option (string -> string);
  delimiter : option string
}.

(** The class as written: both hooks strip, [delimiter = None]. *)
Definition BaseSplitter_init : BaseSplitter :=
  mkBaseSplitter (Some strip) (Some strip) None.

(** [BaseSplitter.__call__] *)
Fixpoint BaseSplitter_call (sp : BaseSplitter) (lines : list string)
  : gen (list string) :=
  match lines with
  | [] => Gen [] None
  | x :: rest =>
      let line := match process_line sp with Some f => f x | None => x end in
      match py_split (delimiter sp) line with
      | Raise e => Gen [] (Some e)
      | Ok vals =>
          let row := match process_val sp with
                     | Some f => map f vals
                     | None => vals
                     end in
          let g := BaseSplitter_call sp rest in
          Gen (row :: yielded g) (failure g)
      end
  end.

(** ** Line locators and comment patterns *)

(** [start_line] / [end_line]: [None], an int, or a function of the
    lines that returns [None] or an int. *)
Inductive line_spec :=
| LNone
| LInt (n : Z)
| LFunc (f : list string -> option Z).

Definition _get_line_index (line_or_func : line_spec) (lines : list string)
  : option Z :=
  match line_or_func with
  | LFunc f => f lines
  | LInt n => Some n
  | LNone => None
  end.

(** [re.compile(p).match]: does the pattern match at the start of the
    line. A [comment] attribute that is [None] (or empty, which is as
    false) is [None] here. *)
Definition pattern := string -> bool.

(** The pattern [\s*#] of the basic readers. *)
Definition re_hash : pattern := fun line =>
  match lstrip_chars (chars line) with
  | c :: _ => Ascii.eqb c "#"
  | [] => false
  end.

(** ** BaseHeader *)

Record Header := mkHeader {
  h_start_line : line_spec;
  h_comment : option pattern;
  h_splitter : splitter;
  h_names : option (list string);
  include_names : option (list string);
  exclude_names : option (list string)
}.

(** [auto_format % i] with [auto_format = 'col%d'] *)
Definition auto_format (i : nat) : string := "col" +:+ pretty i.

(** The test of [BaseHeader.process_lines],
    [line and not self.comment or not re_comment.match(line)]:
    [re_comment] is bound only when [self.comment] is true. *)
Definition header_keeps (comment : option pattern) (line : string)
  : result bool :=
  if nonempty line && negb (bool_decide (is_Some comment))
  then Ok true
  else match comment with
       | Some re_comment => Ok (negb (re_comment line))
       | None => Raise (UnboundLocalError "re_comment")
       end.

(** [BaseHeader.process_lines] *)
Fixpoint header_process_lines (comment : option pattern) (lines : list string)
  : gen string :=
  match lines with
  | [] => Gen [] None
  | line :: rest =>
      match header_keeps comment line with
      | Raise e => Gen [] (Some e)
      | Ok true =>
          let g := header_process_lines comment rest in
          Gen (line :: yielded g) (failure g)
      | Ok false => header_process_lines comment rest
      end
  end.

(** The [for i, line in enumerate(...)] loop of [get_cols] that breaks
    at [i == start_line], with its [else] branch. *)
Definition header_line (g : gen string) (start_line : Z) : result string :=
  match (if (0 <=? start_line)%Z then yielded g !! Z.to_nat start_line else None) with
  | Some line => Ok line
  | None =>
      match failure g with
      | Some e => Raise e
      | None => Raise (ValueError "No header line found in table")
      end
  end.

(** Lines 220-224 of [get_cols]: the set of requested names. *)
Definition requested_names (names : list string)
  (include exclude : option (list string)) : gset string :=
  let s : gset string := list_to_set names in
  let s := match include with
           | Some inc => s ∩ list_to_set inc
           | None => s
           end in
  match exclude with
  | Some exc => s ∖ list_to_set exc
  | None => s
  end.

(** Line 226:
    [[Column(name=x, index=i) for i, x in enumerate(self.names) if x in names]] *)
Definition make_cols (self_names : list string) (names : gset string)
  : list Column :=
  omap (fun ix : nat * string =>
          if decide (ix.2 ∈ names) then Some (Column_init ix.2 ix.1) else None)
       (imap pair self_names).

(** [BaseHeader.get_cols]; [first_row] is
    [self.data.get_str_vals().next()]. Returns [self.names] and
    [self.cols]. *)
Definition get_cols (h : Header) (first_row : result (list string))
  (lines : list string) : result (list string * list Column) :=
  first_data_vals ← first_row;
  let n_data_cols := length first_data_vals in
  let start_line := _get_line_index (h_start_line h) lines in
  names ← match start_line, h_names h with
          | None, None => Ok (map auto_format (seq 1 n_data_cols))
          | Some start_line, None =>
              line ← header_line (header_process_lines (h_comment h) lines) start_line;
              gen_next (h_splitter h [line])
          | _, Some names => Ok names
          end;
  if decide (length names ≠ n_data_cols)
  then Raise (InconsistentTableError
                (FirstLine (length names) (length first_data_vals)
                           names first_data_vals))
  else Ok (names,
           make_cols names
             (requested_names names (include_names h) (exclude_names h))).

(** ** BaseData *)

Record Data := mkData {
  d_start_line : line_spec;
  d_end_line : line_spec;
  d_comment : option pattern;
  d_splitter : splitter;
  fill_values : option (gmap string string)
}.

(** [BaseData.process_lines] *)
Definition data_process_lines (comment : option pattern) (lines : list string)
  : list string :=
  let nonblank_lines := filter (fun x => Is_true (nonblank x)) lines in
  match comment with
  | Some re_comment =>
      filter (fun x => Is_true (negb (re_comment x))) nonblank_lines
  | None => nonblank_lines
  end.

(** A bound of [slice(..)] used to index a list: an int or [None];
    anything else is refused by the list. *)
Definition slice_bound (x : line_spec) : result (option Z) :=
  match x with
  | LNone => Ok None
  | LInt n => Ok (Some n)
  | LFunc _ => Raise (TypeError "slice indices must be integers or None")
  end.

(** [BaseData.get_data_lines]; returns [self.data_lines]. The slice is
    built from [start_line] and from the attribute [self.end_line]. *)
Definition get_data_lines (d : Data) (lines : list string)
  : result (list string) :=
  let data_lines := data_process_lines (d_comment d) lines in
  let start_line := _get_line_index (d_start_line d) data_lines in
  let end_line := _get_line_index (d_end_line d) data_lines in
  if bool_decide (is_Some start_line) || bool_decide (is_Some end_line)
  then stop ← slice_bound (d_end_line d);
       Ok (py_slice start_line stop data_lines)
  else Ok data_lines.

(** [BaseData.get_str_vals] *)
Definition get_str_vals (d : Data) (data_lines : list string)
  : gen (list string) :=
  d_splitter d data_lines.

(** The dict-valued names in scope in the body of [set_masks]: its
    locals are [self], [cols], [col], [i], [str_val], and the module
    binds classes, functions and [extra_reader_pars] only. *)
Definition set_masks_locals : gmap string (gmap string string) := ∅.
Definition module_globals : gmap string (gmap string string) := ∅.

(** One turn of the inner loop of [set_masks] at item [(i, x)] of
    [enumerate(col.str_vals)]: the filter [x in fill_values], then the
    two assignments. *)
Definition fill_item (col : Column) (ix : nat * string) : result Column :=
  fv ← load_name set_masks_locals module_globals "fill_values";
  match (fv : gmap string string) !! ix.2 with
  | None => Ok col
  | Some _ =>
      fv' ← load_name set_masks_locals module_globals "fill_values";
      match (fv' : gmap string string) !! ix.2 with
      | None => Raise (OtherError "KeyError")
      | Some fill =>
          Ok (mkColumn (name col) (index col)
                (<[ix.1 := fill]> (str_vals col))
                ((fun m => <[ix.1 := true]> m) <$> mask col)
                (data col))
      end
  end.

Fixpoint fill_items (col : Column) (items : list (nat * string))
  : result Column :=
  match items with
  | [] => Ok col
  | ix :: rest => col' ← fill_item col ix; fill_items col' rest
  end.

(** [BaseData.set_masks] *)
Definition set_masks (d : Data) (cols : list Column) : result (list Column) :=
  match fill_values d with
  | None => Ok cols
  | Some _ =>
      map_result
        (fun col =>
           let col := set_mask col (replicate (length (str_vals col)) false) in
           fill_items col (imap pair (str_vals col)))
        cols
  end.

(** ** BaseOutputter *)

Definition converter := list string -> result col_data.

(** An entry of [converters]: a list of functions, or one function. *)
Inductive conv_spec :=
| ConvList (l : list converter)
| ConvOne (c : converter).

Record Outputter := mkOutputter {
  converters : gmap string conv_spec;
  default_converter : list converter
}.

Section Converters.
(** [int] and [float] on a [str]: a value, or [ValueError]. *)
Variable int_ : string -> option Z.
Variable float_ : string -> option float_lit.

Definition call_or_ValueError {A} (f : string -> option A) (x : string)
  : result A :=
  match f x with
  | Some v => Ok v
  | None => Raise (ValueError "invalid literal")
  end.

(** [lambda vals: [int(x) for x in vals]] *)
Definition conv_int : converter := fun vals =>
  l ← map_result (call_or_ValueError int_) vals; Ok (IntData l).

(** [lambda vals: [float(x) for x in vals]] *)
Definition conv_float : converter := fun vals =>
  l ← map_result (call_or_ValueError float_) vals; Ok (FloatData l).

(** [lambda vals: vals] *)
Definition conv_id : converter := fun vals => Ok (StrData vals).

(** The class [BaseOutputter]: [converters = {}] and the default list. *)
Definition BaseOutputter_with : Outputter :=
  mkOutputter ∅ [conv_int; conv_float; conv_id].
End Converters.

Definition BaseOutputter : Outputter := BaseOutputter_with py_int py_float.

(** The [while not hasattr(col, 'data')] loop of [_convert_vals] on the
    column's own copy of the converter list. *)
Fixpoint try_converters (col_name : string) (convs : list converter)
  (vals : list string) : result col_data :=
  match convs with
  | [] => Raise (ValueError ("Column " +:+ col_name +:+ " failed to convert"))
  | c :: rest =>
      match c vals with
      | Ok d => Ok d
      | Raise (TypeError _) | Raise (ValueError _) =>
          try_converters col_name rest vals
      | Raise IndexError =>
          Raise (ValueError ("Column " +:+ col_name +:+ " failed to convert"))
      | Raise e => Raise e
      end
  end.

Definition convert_col (o : Outputter) (col : Column) : result Column :=
  let convs := match converters o !! name col with
               | Some (ConvList l) => l
               | Some (ConvOne c) => [c]
               | None => default_converter o
               end in
  match data col with
  | Some _ => Ok col
  | None => d ← try_converters (name col) convs (str_vals col);
            Ok (set_data col d)
  end.

(** [BaseOutputter._convert_vals] *)
Definition _convert_vals (o : Outputter) (cols : list Column)
  : result (list Column) :=
  map_result (convert_col o) cols.

(** The table: the dict of columns by name and [dtype.names]. *)
Record Table := mkTable {
  columns : gmap string Column;
  dtype_names : list string
}.

(** [dict(pairs)]: a later pair replaces an earlier one of the same key. *)
Definition dict_of {V} (pairs : list (string * V)) : gmap string V :=
  foldl (fun m kv => <[kv.1 := kv.2]> m) ∅ pairs.

(** [BaseOutputter.__call__] *)
Definition Outputter_call (o : Outputter) (cols : list Column) : result Table :=
  cols' ← _convert_vals o cols;
  Ok (mkTable (dict_of (map (fun x => (name x, x)) cols')) (map name cols')).

(** ** BaseReader *)

Record Reader := mkReader {
  reader_header : Header;
  reader_data : Data;
  reader_outputter : Outputter
}.

(** The state of the row loop of [read]: the row number, [n_data_cols]
    (set at row 0) and the columns filled so far. *)
Definition row_step (st : nat * nat * list Column) (str_vals_ : list string)
  : result (nat * nat * list Column) :=
  let '(i, n, cols) := st in
  let n_data_cols := if (i =? 0)%nat then length str_vals_ else n in
  if decide (length str_vals_ ≠ n_data_cols)
  then Raise (InconsistentTableError
                (DataLine (length cols) (length str_vals_) i
                          (map name cols) str_vals_))
  else
    cols' ← map_result
              (fun col =>
                 match str_vals_ !! index col with
                 | Some v => Ok (set_str_vals col (str_vals col ++ [v]))
                 | None => Raise IndexError
                 end) cols;
    Ok (S i, n_data_cols, cols').

Fixpoint row_loop (st : nat * nat * list Column) (rows : list (list string))
  : result (list Column) :=
  match rows with
  | [] => Ok st.2
  | r :: rows' => st' ← row_step st r; row_loop st' rows'
  end.

(** The [for i, str_vals in enumerate(self.data.get_str_vals())] loop:
    the rows the generator yields, then the exception that ends it. *)
Definition read_rows (cols : list Column) (g : gen (list string))
  : result (list Column) :=
  cols' ← row_loop (0, 0, cols) (yielded g);
  match failure g with
  | Some e => Raise e
  | None => Ok cols'
  end.

(** [BaseReader.read] from [self.data.get_data_lines(lines)] on:
    [lines] is what [self.inputter.get_lines(table)] returned. *)
Definition read (r : Reader) (lines : list string) : result Table :=
  data_lines ← get_data_lines (reader_data r) lines;
  '(_, cols) ← get_cols (reader_header r)
                 (gen_next (get_str_vals (reader_data r) data_lines)) lines;
  cols ← read_rows cols (get_str_vals (reader_data r) data_lines);
  cols ← set_masks (reader_data r) cols;
  Outputter_call (reader_outputter r) cols.

(** [BaseInputter.process_lines]: the lines as they are. *)
Definition BaseInputter_process_lines (lines : list string) : list string :=
  lines.

(** [BaseInputter.get_lines] on a table that is a list of strings:
    [table + ''] raises the [TypeError] that is caught, and [table[0]]
    then raises [IndexError] on the empty list, which the inner
    [except TypeError] does not catch; a list with a first element is
    taken as the lines. (A table that is one string names a file or is
    split at the line separator of the platform.) *)
Definition get_lines (table : list string) : result (list string) :=
  match table with
  | [] => Raise IndexError
  | _ :: _ => Ok (BaseInputter_process_lines table)
  end.

(** [BaseReader.read] on a table that is a list of strings, with the
    [BaseInputter] every reader of this file has. *)
Definition read_table (r : Reader) (table : list string) : result Table :=
  lines ← get_lines table;
  read r lines.

(** ** The readers *)

(** [BaseReader.__init__] with the class defaults of [BaseHeader],
    [BaseData] and [BaseOutputter]; [hs] and [ds] are the two
    [DefaultSplitter] instances. *)
Definition BaseReader_init (hs ds : splitter) : Reader :=
  mkReader (mkHeader LNone None hs None None None)
           (mkData LNone LNone None ds None)
           BaseOutputter.

(** [BasicReader.__init__]: the delimiter is part of the splitters. *)
Definition BasicReader (hs ds : splitter) : Reader :=
  mkReader (mkHeader (LInt 0) (Some re_hash) hs None None None)
           (mkData (LInt 1) LNone (Some re_hash) ds None)
           BaseOutputter.

(** [NoHeaderReader.__init__] *)
Definition NoHeaderReader (hs ds : splitter) : Reader :=
  mkReader (mkHeader LNone (Some re_hash) hs None None None)
           (mkData (LInt 0) LNone (Some re_hash) ds None)
           BaseOutputter.

(** A splitter that splits on whitespace runs and strips: [BaseSplitter()]. *)
Definition ws_splitter : splitter := BaseSplitter_call BaseSplitter_init.

End Core.

(* ===================================================================== *)
(** * asciitable/ui.py: the guesser *)
(* ===================================================================== *)

Module Ui.
Import Py.

(** The reader classes the guesser names, and any other one. *)
Inductive reader_class :=
| Rdb | Tab | Cds | Daophot | Ipac
| CommentedHeader | BasicReader | NoHeader
| OtherReader (cls : string).

(** A keyword value: a reader class, a string, an int, a list of
    names, or another object (compared by identity). *)
Inductive kwval :=
| VReader (r : reader_class)
| VStr (s : string)
| VInt (n : Z)
| VNames (l : list string)
| VObj (id : string).

#[global] Instance reader_class_eq_dec : EqDecision reader_class.
Proof. solve_decision. Defined.
#[global] Instance kwval_eq_dec : EqDecision kwval.
Proof. solve_decision. Defined.

(** The one-character string of the double quote. *)
Definition dquote : string := String "034" EmptyString.
Definition tab : string := String "009" EmptyString.

(** [_get_guess_kwargs_list] *)
Definition _get_guess_kwargs_list : list (gmap string kwval) :=
  let guess_kwargs_list :=
    [ {[ "Reader" := VReader Rdb ]};
      {[ "Reader" := VReader Tab ]};
      {[ "Reader" := VReader Cds ]};
      {[ "Reader" := VReader Daophot ]};
      {[ "Reader" := VReader Ipac ]} ] in
  guess_kwargs_list ++
  (Reader ← [CommentedHeader; BasicReader; NoHeader];
   delimiter ← ["|"; ","; " "; "\s"];
   quotechar ← [dquote; "'"];
   [ ({[ "Reader" := VReader Reader;
         "delimiter" := VStr delimiter;
         "quotechar" := VStr quotechar ]} : gmap string kwval) ]).

(** One turn of the inner loop of [_guess] over [read_kwargs.items()];
    its [continue] goes on with the next key. *)
Definition merge_item (guess_kwargs : gmap string kwval) (kv : string * kwval)
  : gmap string kwval :=
  let '(key, val) := kv in
  match guess_kwargs !! key with
  | None => <[key := val]> guess_kwargs
  | Some v => if decide (val ≠ v) then guess_kwargs else guess_kwargs
  end.

Definition merge_items (items : list (string * kwval))
  (guess_kwargs : gmap string kwval) : gmap string kwval :=
  foldl merge_item guess_kwargs items.

Definition merge_kwargs (read_kwargs guess_kwargs : gmap string kwval)
  : gmap string kwval :=
  merge_items (map_to_list read_kwargs) guess_kwargs.

(** [_is_number] *)
Definition _is_number (x : string) : bool :=
  match py_float x with
  | Some _ => true
  | None => false
  end.

Definition bads : list string := [" "; ","; "|"; tab; "'"; dquote].

Definition first_char (s : string) : option string :=
  match s with
  | String c _ => Some (String c EmptyString)
  | EmptyString => None
  end.

Fixpoint last_char (s : string) : option string :=
  match s with
  | EmptyString => None
  | String c EmptyString => Some (String c EmptyString)
  | String _ s' => last_char s'
  end.

Definition in_bads (c : option string) : bool :=
  match c with
  | Some c => bool_decide (c ∈ bads)
  | None => false
  end.

(** The test on one column name. *)
Definition bad_name (col_name : string) : bool :=
  _is_number col_name
  || (String.length col_name =? 0)%nat
  || in_bads (first_char col_name)
  || in_bads (last_char col_name).

(** The condition under which [_guess] raises [ValueError] after a
    read that succeeded. *)
Definition rejected (col_names : list string) : bool :=
  (length col_names <=? 1)%nat || existsb bad_name col_names.

(** [except (core.InconsistentTableError, ValueError, TypeError)] *)
Definition caught (e : exn) : bool :=
  match e with
  | InconsistentTableError _ | ValueError _ | TypeError _ => true
  | _ => false
  end.

(** [except (core.InconsistentTableError, ValueError)] of the last read. *)
Definition caught_last (e : exn) : bool :=
  match e with
  | InconsistentTableError _ | ValueError _ => true
  | _ => false
  end.

Section Guess.
(** The table object a read returns. *)
Context {T : Type}.
(** [get_reader] called with the keywords, then [reader.read(table)] on the
    table at hand: the value read and the names of [reader.cols], or
    the exception either call raises. *)
Variable attempt : gmap string kwval -> result (T * list string).

(** The body of the [try] for one candidate: [Some r] when [_guess]
    ends with [r], [None] when the loop goes on. *)
Definition try_candidate (guess_kwargs : gmap string kwval)
  : option (result T) :=
  match attempt guess_kwargs with
  | Ok (dat, col_names) =>
      if rejected col_names
      then None                 (* raise ValueError, caught below *)
      else Some (Ok dat)
  | Raise e => if caught e then None else Some (Raise e)
  end.

(** The [for guess_kwargs in ...] loop; [None] when it runs to its end. *)
Fixpoint guess_loop (read_kwargs : gmap string kwval)
  (candidates : list (gmap string kwval)) : option (result T) :=
  match candidates with
  | [] => None
  | guess_kwargs :: rest =>
      match try_candidate (merge_kwargs read_kwargs guess_kwargs) with
      | Some r => Some r
      | None => guess_loop read_kwargs rest
      end
  end.

(** The candidates in the order of the loop. *)
Definition candidates (read_kwargs : gmap string kwval)
  : list (gmap string kwval) :=
  [read_kwargs] ++ _get_guess_kwargs_list.

(** [_guess] *)
Definition _guess (read_kwargs : gmap string kwval) : result T :=
  match guess_loop read_kwargs (candidates read_kwargs) with
  | Some r => r
  | None =>
      match attempt read_kwargs with
      | Ok (dat, _) => Ok dat
      | Raise e =>
          if caught_last e
          then Raise (InconsistentTableError UnableToGuess)
          else Raise e
      end
  end.
End Guess.

End Ui.

(* ===================================================================== *)
(** * The specification's words *)
(* ===================================================================== *)

Module Spec.
Import Py.

(** The typed values a column receives by default: ints if every
    value reads as an int, else floats if every value reads as a
    float, else the original strings. *)
Definition typed_values (int_ : string -> option Z)
  (float_ : string -> option float_lit) (vals : list string) : Core.col_data :=
  match mapM int_ vals with
  | Some l => Core.IntData l
  | None =>
      match mapM float_ vals with
      | Some l => Core.FloatData l
      | None => Core.StrData vals
      end
  end.

(** Row [i] is the first row whose field count differs from row 0's. *)
Definition first_mismatch (rows : list (list string)) (i : nat) : Prop :=
  exists row0 rowi,
    rows !! 0 = Some row0 /\ rows !! i = Some rowi /\
    length rowi ≠ length row0 /\
    forall j rowj, j < i -> rows !! j = Some rowj -> length rowj = length row0.

(** The characters a column name may not begin or end with. *)
Definition bad_chars : list ascii :=
  [" "; ","; "|"; "009"; "'"; "034"]%char.

Definition begins_with (c : ascii) (s : string) : Prop :=
  exists rest, s = String c rest.
Definition ends_with (c : ascii) (s : string) : Prop :=
  exists front, s = front +:+ String c EmptyString.

(** The acceptance heuristic: when is a parsed result rejected. *)
Definition garbage (col_names : list string) : Prop :=
  length col_names < 2 \/
  exists n, n ∈ col_names /\
    (is_Some (py_float n) \/ n = EmptyString \/
     exists c, c ∈ bad_chars /\ (begins_with c n \/ ends_with c n)).

(** The ranked presets as the specification lists them: tab-delimited,
    RDB, CDS, DAOphot, then the product of readers, delimiters and
    quote characters. *)
Definition listed_presets : list (gmap string Ui.kwval) :=
  [ {[ "Reader" := Ui.VReader Ui.Tab ]};
    {[ "Reader" := Ui.VReader Ui.Rdb ]};
    {[ "Reader" := Ui.VReader Ui.Cds ]};
    {[ "Reader" := Ui.VReader Ui.Daophot ]} ] ++
  (Reader ← [Ui.CommentedHeader; Ui.BasicReader; Ui.NoHeader];
   delimiter ← ["|"; ","; " "; "\s"];
   quotechar ← [Ui.dquote; "'"];
   [ ({[ "Reader" := Ui.VReader Reader;
         "delimiter" := Ui.VStr delimiter;
         "quotechar" := Ui.VStr quotechar ]} : gmap string Ui.kwval) ]).

(** A candidate attempt that does not end the search: it raised one
    of the exceptions the guesser discards, or its result is rejected. *)
Definition passed_over {T} (a : result (T * list string)) : Prop :=
  match a with
  | Ok (_, col_names) => Ui.rejected col_names = true
  | Raise e => Ui.caught e = true
  end.

(** The ranked presets in the order of the code: RDB, tab-delimited,
    CDS, DAOphot, IPAC, then reader by delimiter by quote character. *)
Definition reader_only (r : Ui.reader_class) : gmap string Ui.kwval :=
  {[ "Reader" := Ui.VReader r ]}.

Definition preset (r : Ui.reader_class) (delimiter quotechar : string)
  : gmap string Ui.kwval :=
  {[ "Reader" := Ui.VReader r;
     "delimiter" := Ui.VStr delimiter;
     "quotechar" := Ui.VStr quotechar ]}.

Definition ranked_presets : list (gmap string Ui.kwval) :=
  [ reader_only Ui.Rdb; reader_only Ui.Tab; reader_only Ui.Cds;
    reader_only Ui.Daophot; reader_only Ui.Ipac;
    preset Ui.CommentedHeader "|" Ui.dquote; preset Ui.CommentedHeader "|" "'";
    preset Ui.CommentedHeader "," Ui.dquote; preset Ui.CommentedHeader "," "'";
    preset Ui.CommentedHeader " " Ui.dquote; preset Ui.CommentedHeader " " "'";
    preset Ui.CommentedHeader "\s" Ui.dquote; preset Ui.CommentedHeader "\s" "'";
    preset Ui.BasicReader "|" Ui.dquote; preset Ui.BasicReader "|" "'";
    preset Ui.BasicReader "," Ui.dquote; preset Ui.BasicReader "," "'";
    preset Ui.BasicReader " " Ui.dquote; preset Ui.BasicReader " " "'";
    preset Ui.BasicReader "\s" Ui.dquote; preset Ui.BasicReader "\s" "'";
    preset Ui.NoHeader "|" Ui.dquote; preset Ui.NoHeader "|" "'";
    preset Ui.NoHeader "," Ui.dquote; preset Ui.NoHeader "," "'";
    preset Ui.NoHeader " " Ui.dquote; preset Ui.NoHeader " " "'";
    preset Ui.NoHeader "\s" Ui.dquote; preset Ui.NoHeader "\s" "'" ].

(** A converter list that is exhausted on [vals]: each converter raises
    [ValueError] or [TypeError]. *)
Definition exhausted (convs : list Core.converter) (vals : list string) : Prop :=
  Forall (fun conv => exists m, conv vals = Raise (ValueError m) \/
                                conv vals = Raise (TypeError m)) convs.

End Spec.

(* ===================================================================== *)
(** * Tables for the evaluations *)
(* ===================================================================== *)

Module Demo.
Import Py.

(** [BaseSplitter()] with [delimiter = '|']. *)
Definition pipe_splitter : Core.splitter :=
  Core.BaseSplitter_call (Core.mkBaseSplitter (Some strip) (Some strip) (Some "|")).

(** A basic reader with the given splitters whose outputter has
    [converters = {'a|b': [int list]}]. *)
Definition int_reader (sp : Core.splitter) : Core.Reader :=
  Core.mkReader
    (Core.reader_header (Core.BasicReader sp sp))
    (Core.reader_data (Core.BasicReader sp sp))
    (Core.mkOutputter {[ "a|b" := Core.ConvList [Core.conv_int py_int] ]}
       (Core.default_converter Core.BaseOutputter)).

(** The read of a candidate: the table and the names of its columns. *)
Definition read_with (r : Core.Reader) (table : list string)
  : result (Core.Table * list string) :=
  t ← Core.read r table; Ok (t, Core.dtype_names t).

(** The keywords of [read(table, converters={'a|b': [int list]})]. *)
Definition converters_kwargs : gmap string Ui.kwval :=
  {[ "Outputter" := Ui.VObj "BaseOutputter";
     "converters" := Ui.VObj "{'a|b': [int list]}" ]}.

(** The read with the caller's own keywords [converters_kwargs]: the
    basic reader, its lines split on whitespace, with the caller's
    converters. *)
Definition own_read (table : list string)
  : result (Core.Table * list string) :=
  read_with (int_reader Core.ws_splitter) table.

(** The attempts on a table of which the one with the caller's own
    keywords is read by the code above; what the attempts with any other
    keywords give is left to [others]. *)
Definition attempt_with
  (others : gmap string Ui.kwval -> result (Core.Table * list string))
  (table : list string) (kw : gmap string Ui.kwval)
  : result (Core.Table * list string) :=
  if bool_decide (kw = converters_kwargs) then own_read table else others kw.

End Demo.

(* ===================================================================== *)
(** * asciitable.py: the custom extensions *)
(* ===================================================================== *)

Module Formats.
Import Py.

(** ** ContinuationLinesInputter *)

(** [s.endswith(suffix)] *)
Definition endswith (suffix s : string) : bool :=
  is_prefix (rev (chars suffix)) (rev (chars s)).

(** [s.startswith(prefix)] *)
Definition startswith (prefix s : string) : bool :=
  is_prefix (chars prefix) (chars s).

Fixpoint lstrip_in (set : list ascii) (l : list ascii) : list ascii :=
  match l with
  | c :: l' => if bool_decide (c ∈ set) then lstrip_in set l' else l
  | [] => []
  end.

(** [s.rstrip(set)]: the trailing characters that are in [set] go. *)
Definition rstrip_in (set s : string) : string :=
  str (rev (lstrip_in (chars set) (rev (chars s)))).

(** The class attribute [continuation_char], a backslash. *)
Definition continuation_char : string := String "092" EmptyString.

(** The loop of [ContinuationLinesInputter.process_lines] from the state
    [parts], giving [outlines]. *)
Fixpoint join_continued (cc : string) (parts : list string) (lines : list string)
  : list string :=
  match lines with
  | [] => []
  | line :: rest =>
      if endswith cc line
      then join_continued cc (parts ++ [rstrip_in cc line]) rest
      else String.concat EmptyString (parts ++ [line]) :: join_continued cc [] rest
  end.

(** [ContinuationLinesInputter.process_lines] *)
Definition continuation_process_lines (cc : string) (lines : list string)
  : list string :=
  let striplines := map strip lines in
  let lines := filter (fun x => Is_true (nonempty x)) striplines in
  join_continued cc [] lines.

(** ** CdsData *)

Definition is_section (x : string) : bool :=
  startswith "------" x || startswith "=======" x.

(** [CdsData.process_lines]: [i_sections[-1]] raises [IndexError] on the
    empty list. *)
Definition cds_process_lines (lines : list string) : result (list string) :=
  let i_sections :=
    omap (fun ix : nat * string => if is_section ix.2 then Some ix.1 else None)
         (imap pair lines) in
  match last i_sections with
  | None => Raise IndexError
  | Some i => Ok (drop (i + 1) lines)
  end.

(** ** FixedWidthSplitter *)

(** The [start] and [end] attributes a fixed-width header gives a column. *)
Record Extent := mkExtent { col_start : Z; col_end : Z }.

(** [line[start:end]] *)
Definition str_slice (start stop : Z) (line : string) : string :=
  str (py_slice (Some start) (Some stop) (chars line)).

(** [FixedWidthSplitter.__call__] for the columns [self.cols]. *)
Definition FixedWidthSplitter_call (cols : list Extent)
  (process_val : option (string -> string)) : Core.splitter :=
  fun lines =>
    Gen (map (fun line =>
                let vals := map (fun x => str_slice (col_start x) (col_end x) line) cols in
                match process_val with
                | Some f => map f vals
                | None => vals
                end) lines)
        None.

(** ** DaophotHeader *)

Fixpoint span_not_hash (l : list ascii) : list ascii * list ascii :=
  match l with
  | c :: l' =>
      if Ascii.eqb c "#" then ([], l)
      else let '(run, rest) := span_not_hash l' in (c :: run, rest)
  | [] => ([], [])
  end.

(** The pattern [#N([^#]+)#] tried at the head of [l]: group 1. *)
Definition name_def_here (l : list ascii) : option (list ascii) :=
  if is_prefix ["#"; "N"]%char l
  then match span_not_hash (drop 2 l) with
       | ((_ :: _) as run, _ :: _) => Some run
       | _ => None
       end
  else None.

(** [re_name_def.search(line)]: the leftmost match, its group 1. *)
Fixpoint search_name_def (l : list ascii) : option (list ascii) :=
  match name_def_here l with
  | Some run => Some run
  | None =>
      match l with
      | [] => None
      | _ :: l' => search_name_def l'
      end
  end.

(** The loop of [DaophotHeader.get_cols] over the lines, from
    [self.names = []]. *)
Fixpoint daophot_names (lines : list string) : list string :=
  match lines with
  | [] => []
  | line :: rest =>
      if negb (startswith "#" line) then []
      else match search_name_def (chars line) with
           | Some run => split_ws (str run) ++ daophot_names rest
           | None => daophot_names rest
           end
  end.

(** [DaophotHeader.get_cols]; [first_row] is
    [self.data.get_str_vals().next()]. Returns [self.names] and
    [self.cols]. *)
Definition daophot_get_cols (h : Core.Header) (first_row : result (list string))
  (lines : list string) : result (list string * list Core.Column) :=
  first_data_vals ← first_row;
  let n_data_cols := length first_data_vals in
  let names := daophot_names lines in
  if decide (length names ≠ n_data_cols)
  then Raise (InconsistentTableError
                (FirstLine (length names) (length first_data_vals)
                           names first_data_vals))
  else Ok (names,
           Core.make_cols names
             (Core.requested_names names (Core.include_names h) (Core.exclude_names h))).

End Formats.

(* ===================================================================== *)
(** * asciitable.py: the reader classes and [get_reader] *)
(* ===================================================================== *)

Module Config.
Import Py.

(** An attribute value: [None], a string, an int, a list of names, or
    another object. *)
Inductive pyobj :=
| PNone
| PStr (s : string)
| PInt (n : Z)
| PList (l : list string)
| PObj (id : string).

#[global] Instance pyobj_eq_dec : EqDecision pyobj.
Proof. solve_decision. Defined.

Inductive splitter_class := BaseSplitter | DefaultSplitter | FixedWidthSplitter.
Inductive header_class := BaseHeader | CommentedHeader | DaophotHeader | CdsHeader.
Inductive data_class := BaseData | CdsData.
Inductive inputter_class := BaseInputter | ContinuationLinesInputter.
Inductive outputter_class := BaseOutputter | NumpyOutputter.
Inductive reader_class :=
| BaseReader | BasicReader | NoHeaderReader | CommentedHeaderReader
| TabReader | RdbReader | DaophotReader | CdsReader.

#[global] Instance splitter_class_eq_dec : EqDecision splitter_class.
Proof. solve_decision. Defined.
#[global] Instance outputter_class_eq_dec : EqDecision outputter_class.
Proof. solve_decision. Defined.

(** A splitter instance: its class, and the attributes the readers and
    [get_reader] set on it. [process_line_set] is false once
    [process_line] is [None]. *)
Record SplitterObj := mkSplitterObj {
  sp_class : splitter_class;
  sp_delimiter : pyobj;
  sp_quotechar : pyobj;
  process_line_set : bool
}.

(** [cls()]: the class attributes. [BaseSplitter] and its subclass
    [FixedWidthSplitter] have no [quotechar]. *)
Definition new_splitter (cls : splitter_class) : SplitterObj :=
  match cls with
  | DefaultSplitter =>
      mkSplitterObj cls (PStr " ") (PStr (String "034" EmptyString)) true
  | _ => mkSplitterObj cls PNone PNone true
  end.

Record HeaderObj := mkHeaderObj {
  h_class : header_class;
  h_start_line : pyobj;
  h_comment : pyobj;
  h_splitter : SplitterObj;
  h_names : pyobj;
  h_include_names : pyobj;
  h_exclude_names : pyobj
}.

Record DataObj := mkDataObj {
  d_class : data_class;
  d_start_line : pyobj;
  d_end_line : pyobj;
  d_comment : pyobj;
  d_splitter : SplitterObj;
  d_fill_values : pyobj
}.

Record OutputterObj := mkOutputterObj {
  o_class : outputter_class;
  o_converters : pyobj;
  o_default_masked : pyobj;
  o_auto_masked : pyobj
}.

Record ReaderObj := mkReaderObj {
  header : HeaderObj;
  data : DataObj;
  inputter : inputter_class;
  outputter : OutputterObj
}.

(** [BaseHeader()] and its subclasses: [splitter_class = DefaultSplitter]. *)
Definition new_header (cls : header_class) : HeaderObj :=
  mkHeaderObj cls PNone PNone (new_splitter DefaultSplitter) PNone PNone PNone.

(** [BaseData()], and [CdsData()] with [splitter_class = FixedWidthSplitter]. *)
Definition new_data (cls : data_class) : DataObj :=
  mkDataObj cls PNone PNone PNone
    (new_splitter match cls with BaseData => DefaultSplitter | CdsData => FixedWidthSplitter end)
    PNone.

(** [BaseOutputter()] / [NumpyOutputter()]: [converters = {}]; the masked
    attributes are not those [get_reader] sets. *)
Definition new_outputter (cls : outputter_class) : OutputterObj :=
  mkOutputterObj cls (PObj "{}") PNone PNone.

(** Attribute assignments. *)
Definition set_delimiter (v : pyobj) (s : SplitterObj) : SplitterObj :=
  mkSplitterObj (sp_class s) v (sp_quotechar s) (process_line_set s).
Definition set_quotechar (v : pyobj) (s : SplitterObj) : SplitterObj :=
  mkSplitterObj (sp_class s) (sp_delimiter s) v (process_line_set s).
Definition unset_process_line (s : SplitterObj) : SplitterObj :=
  mkSplitterObj (sp_class s) (sp_delimiter s) (sp_quotechar s) false.

Definition with_h_splitter (f : SplitterObj -> SplitterObj) (h : HeaderObj) : HeaderObj :=
  mkHeaderObj (h_class h) (h_start_line h) (h_comment h) (f (h_splitter h))
    (h_names h) (h_include_names h) (h_exclude_names h).
Definition with_h_start_line (v : pyobj) (h : HeaderObj) : HeaderObj :=
  mkHeaderObj (h_class h) v (h_comment h) (h_splitter h)
    (h_names h) (h_include_names h) (h_exclude_names h).
Definition with_h_comment (v : pyobj) (h : HeaderObj) : HeaderObj :=
  mkHeaderObj (h_class h) (h_start_line h) v (h_splitter h)
    (h_names h) (h_include_names h) (h_exclude_names h).
Definition with_h_names (v : pyobj) (h : HeaderObj) : HeaderObj :=
  mkHeaderObj (h_class h) (h_start_line h) (h_comment h) (h_splitter h)
    v (h_include_names h) (h_exclude_names h).
Definition with_h_include_names (v : pyobj) (h : HeaderObj) : HeaderObj :=
  mkHeaderObj (h_class h) (h_start_line h) (h_comment h) (h_splitter h)
    (h_names h) v (h_exclude_names h).
Definition with_h_exclude_names (v : pyobj) (h : HeaderObj) : HeaderObj :=
  mkHeaderObj (h_class h) (h_start_line h) (h_comment h) (h_splitter h)
    (h_names h) (h_include_names h) v.

Definition with_d_splitter (f : SplitterObj -> SplitterObj) (d : DataObj) : DataObj :=
  mkDataObj (d_class d) (d_start_line d) (d_end_line d) (d_comment d)
    (f (d_splitter d)) (d_fill_values d).
Definition with_d_start_line (v : pyobj) (d : DataObj) : DataObj :=
  mkDataObj (d_class d) v (d_end_line d) (d_comment d) (d_splitter d) (d_fill_values d).
Definition with_d_end_line (v : pyobj) (d : DataObj) : DataObj :=
  mkDataObj (d_class d) (d_start_line d) v (d_comment d) (d_splitter d) (d_fill_values d).
Definition with_d_comment (v : pyobj) (d : DataObj) : DataObj :=
  mkDataObj (d_class d) (d_start_line d) (d_end_line d) v (d_splitter d) (d_fill_values d).

Definition with_header (f : HeaderObj -> HeaderObj) (r : ReaderObj) : ReaderObj :=
  mkReaderObj (f (header r)) (data r) (inputter r) (outputter r).
Definition with_data (f : DataObj -> DataObj) (r : ReaderObj) : ReaderObj :=
  mkReaderObj (header r) (f (data r)) (inputter r) (outputter r).
Definition with_inputter (i : inputter_class) (r : ReaderObj) : ReaderObj :=
  mkReaderObj (header r) (data r) i (outputter r).
Definition with_outputter (f : OutputterObj -> OutputterObj) (r : ReaderObj) : ReaderObj :=
  mkReaderObj (header r) (data r) (inputter r) (f (outputter r)).

(** The pattern string of the comment lines of the readers. *)
Definition hash_comment : pyobj := PStr "\s*#".

(** [BaseReader.__init__] *)
Definition BaseReader_init : ReaderObj :=
  mkReaderObj (new_header BaseHeader) (new_data BaseData) BaseInputter
    (new_outputter BaseOutputter).

(** [BasicReader.__init__] *)
Definition BasicReader_init : ReaderObj :=
  let r := BaseReader_init in
  let r := with_header (with_h_splitter (set_delimiter (PStr " "))) r in
  let r := with_data (with_d_splitter (set_delimiter (PStr " "))) r in
  let r := with_header (with_h_start_line (PInt 0)) r in
  let r := with_data (with_d_start_line (PInt 1)) r in
  let r := with_header (with_h_comment hash_comment) r in
  with_data (with_d_comment hash_comment) r.

(** [NoHeaderReader.__init__] *)
Definition NoHeaderReader_init : ReaderObj :=
  let r := BasicReader_init in
  let r := with_header (with_h_start_line PNone) r in
  with_data (with_d_start_line (PInt 0)) r.

(** [CommentedHeaderReader.__init__] *)
Definition CommentedHeaderReader_init : ReaderObj :=
  let r := BaseReader_init in
  let r := with_header (fun _ => new_header CommentedHeader) r in
  let r := with_header (with_h_splitter (set_delimiter (PStr " "))) r in
  let r := with_data (with_d_splitter (set_delimiter (PStr " "))) r in
  let r := with_header (with_h_start_line (PInt 0)) r in
  let r := with_data (with_d_start_line (PInt 0)) r in
  let r := with_header (with_h_comment hash_comment) r in
  with_data (with_d_comment hash_comment) r.

(** [TabReader.__init__] *)
Definition TabReader_init : ReaderObj :=
  let r := BasicReader_init in
  let r := with_header (with_h_splitter (set_delimiter (PStr (String "009" EmptyString)))) r in
  let r := with_data (with_d_splitter (set_delimiter (PStr (String "009" EmptyString)))) r in
  let r := with_header (with_h_splitter unset_process_line) r in
  with_data (with_d_splitter unset_process_line) r.

(** [RdbReader.__init__] *)
Definition RdbReader_init : ReaderObj :=
  with_data (with_d_start_line (PInt 2)) TabReader_init.

(** [DaophotReader.__init__] *)
Definition DaophotReader_init : ReaderObj :=
  let r := BaseReader_init in
  let r := with_header (fun _ => new_header DaophotHeader) r in
  let r := with_inputter ContinuationLinesInputter r in
  let r := with_data (with_d_splitter (set_delimiter (PStr " "))) r in
  let r := with_data (with_d_start_line (PInt 0)) r in
  with_data (with_d_comment hash_comment) r.

(** [CdsReader.__init__] *)
Definition CdsReader_init : ReaderObj :=
  let r := BaseReader_init in
  let r := with_header (fun _ => new_header CdsHeader) r in
  with_data (fun _ => new_data CdsData) r.

(** [Reader()] *)
Definition new_reader (cls : reader_class) : ReaderObj :=
  match cls with
  | BaseReader => BaseReader_init
  | BasicReader => BasicReader_init
  | NoHeaderReader => NoHeaderReader_init
  | CommentedHeaderReader => CommentedHeaderReader_init
  | TabReader => TabReader_init
  | RdbReader => RdbReader_init
  | DaophotReader => DaophotReader_init
  | CdsReader => CdsReader_init
  end.

(** A keyword argument of [get_reader]: a value, or a splitter class
    (for [data_Splitter] and [header_Splitter]). *)
Inductive arg :=
| Val (v : pyobj)
| SplitterClass (cls : splitter_class).

Definition extra_reader_pars : list string :=
  ["Reader"; "Inputter"; "Outputter";
   "delimiter"; "comment"; "quotechar"; "header_start";
   "data_start"; "data_end"; "converters";
   "data_Splitter"; "header_Splitter";
   "default_masked"; "auto_masked";
   "names"; "include_names"; "exclude_names"].

(** [[x for x in kwargs if x not in extra_reader_pars]] (in some order). *)
Definition bad_args (kwargs : gmap string arg) : list string :=
  filter (fun x => x ∉ extra_reader_pars) (map fst (map_to_list kwargs)).

(** One [if key in kwargs: target = kwargs[key]] of [get_reader], for a
    plain value. *)
Definition on_val (kwargs : gmap string arg) (key : string)
  (f : pyobj -> ReaderObj -> ReaderObj) (r : ReaderObj) : result ReaderObj :=
  match kwargs !! key with
  | None => Ok r
  | Some (Val v) => Ok (f v r)
  | Some (SplitterClass _) => Ok (f (PObj "a splitter class") r)
  end.

(** [if key in kwargs: target = kwargs[key]()]: the value is called. *)
Definition on_class (kwargs : gmap string arg) (key : string)
  (f : SplitterObj -> ReaderObj -> ReaderObj) (r : ReaderObj) : result ReaderObj :=
  match kwargs !! key with
  | None => Ok r
  | Some (SplitterClass cls) => Ok (f (new_splitter cls) r)
  | Some (Val _) => Raise (TypeError "object is not callable")
  end.

Definition with_o_converters (v : pyobj) (o : OutputterObj) : OutputterObj :=
  mkOutputterObj (o_class o) v (o_default_masked o) (o_auto_masked o).
Definition with_o_default_masked (v : pyobj) (o : OutputterObj) : OutputterObj :=
  mkOutputterObj (o_class o) (o_converters o) v (o_auto_masked o).
Definition with_o_auto_masked (v : pyobj) (o : OutputterObj) : OutputterObj :=
  mkOutputterObj (o_class o) (o_converters o) (o_default_masked o) v.

(** [get_reader(Reader, Inputter, Outputter, numpy, **kwargs)];
    [has_numpy] is the module flag. *)
Definition get_reader (has_numpy : bool)
  (Reader : option reader_class) (Inputter : option inputter_class)
  (Outputter : option outputter_class) (numpy : bool)
  (kwargs : gmap string arg) : result ReaderObj :=
  let Reader := match Reader with None => BasicReader | Some cls => cls end in
  let reader := new_reader Reader in
  let reader := match Inputter with
                | Some cls => with_inputter cls reader
                | None => reader
                end in
  let reader := if has_numpy && numpy
                then with_outputter (fun _ => new_outputter NumpyOutputter) reader
                else reader in
  let reader := match Outputter with
                | Some cls => with_outputter (fun _ => new_outputter cls) reader
                | None => reader
                end in
  match bad_args kwargs with
  | _ :: _ => Raise (ValueError "Supplied arg(s) not allowed for get_reader()")
  | [] =>
      reader ← on_val kwargs "delimiter"
                 (fun v r => with_data (with_d_splitter (set_delimiter v))
                               (with_header (with_h_splitter (set_delimiter v)) r)) reader;
      reader ← on_val kwargs "comment"
                 (fun v r => with_data (with_d_comment v)
                               (with_header (with_h_comment v) r)) reader;
      reader ← on_val kwargs "quotechar"
                 (fun v r => with_data (with_d_splitter (set_quotechar v))
                               (with_header (with_h_splitter (set_quotechar v)) r)) reader;
      reader ← on_val kwargs "data_start"
                 (fun v => with_data (with_d_start_line v)) reader;
      reader ← on_val kwargs "data_end"
                 (fun v => with_data (with_d_end_line v)) reader;
      reader ← on_val kwargs "header_start"
                 (fun v => with_header (with_h_start_line v)) reader;
      reader ← on_val kwargs "converters"
                 (fun v => with_outputter (with_o_converters v)) reader;
      reader ← on_class kwargs "data_Splitter"
                 (fun s => with_data (with_d_splitter (fun _ => s))) reader;
      reader ← on_class kwargs "header_Splitter"
                 (fun s => with_header (with_h_splitter (fun _ => s))) reader;
      reader ← on_val kwargs "default_masked"
                 (fun v => with_outputter (with_o_default_masked v)) reader;
      reader ← on_val kwargs "auto_masked"
                 (fun v => with_outputter (with_o_auto_masked v)) reader;
      reader ← on_val kwargs "names"
                 (fun v => with_header (with_h_names v)) reader;
      reader ← on_val kwargs "include_names"
                 (fun v => with_header (with_h_include_names v)) reader;
      reader ← on_val kwargs "exclude_names"
                 (fun v => with_header (with_h_exclude_names v)) reader;
      Ok reader
  end.

End Config.

(* ===================================================================== *)
(** * asciitable/ui.py: [read] and [get_writer] *)
(* ===================================================================== *)

Module UiTop.
Import Py.

(** [set_guess]: the new value of the module global [_GUESS]. *)
Definition set_guess (guess : bool) (_GUESS : bool) : bool := guess.

(** [d.update(other)]: the keys of [other] replace those of [d]. *)
Definition update {V} (d other : gmap string V) : gmap string V := other ∪ d.

Section Read.
Context {T : Type}.
(** As for the guesser: [get_reader] called with the keywords, then
    [reader.read(table)]. *)
Variable attempt : gmap string Ui.kwval -> result (T * list string).

(** [read(table, numpy, guess, ...)] where the module has [has_numpy] and
    the global [_GUESS]. *)
Definition read (has_numpy _GUESS : bool) (numpy : bool) (guess : option bool)
  (kwargs : gmap string Ui.kwval) : result T :=
  let new_kwargs : gmap string Ui.kwval :=
    if has_numpy && numpy
    then {[ "Outputter" := Ui.VObj "NumpyOutputter" ]}
    else {[ "Outputter" := Ui.VObj "BaseOutputter" ]} in
  let new_kwargs := update new_kwargs kwargs in
  let guess := match guess with None => _GUESS | Some g => g end in
  if guess
  then Ui._guess attempt new_kwargs
  else '(dat, _) ← attempt new_kwargs; Ok dat.
End Read.

(** The attributes of a writer that [get_writer] sets. *)
Record Writer := mkWriter {
  header_delimiter : Ui.kwval;
  data_delimiter : Ui.kwval;
  header_write_comment : Ui.kwval;
  data_write_comment : Ui.kwval;
  header_quotechar : Ui.kwval;
  data_quotechar : Ui.kwval;
  data_formats : Ui.kwval;
  header_names : Ui.kwval;
  header_include_names : Ui.kwval;
  header_exclude_names : Ui.kwval
}.

Definition extra_writer_pars : list string :=
  ["delimiter"; "comment"; "quotechar"; "formats";
   "names"; "include_names"; "exclude_names"].

(** [[x for x in kwargs if x not in extra_writer_pars]] (in some order). *)
Definition bad_args (kwargs : gmap string Ui.kwval) : list string :=
  filter (fun x => x ∉ extra_writer_pars) (map fst (map_to_list kwargs)).

(** One [if key in kwargs: ...] of [get_writer]. *)
Definition on_key (kwargs : gmap string Ui.kwval) (key : string)
  (f : Ui.kwval -> Writer -> Writer) (w : Writer) : Writer :=
  match kwargs !! key with
  | Some v => f v w
  | None => w
  end.

(** [get_writer(Writer, ...)]; [writer] is the object [Writer()] makes. *)
Definition get_writer (writer : Writer) (kwargs : gmap string Ui.kwval)
  : result Writer :=
  match bad_args kwargs with
  | _ :: _ => Raise (ValueError "Supplied arg(s) not allowed for get_writer()")
  | [] =>
      let writer :=
        on_key kwargs "delimiter"
          (fun v w => mkWriter v v (header_write_comment w) (data_write_comment w)
                        (header_quotechar w) (data_quotechar w) (data_formats w)
                        (header_names w) (header_include_names w)
                        (header_exclude_names w)) writer in
      let writer :=
        on_key kwargs "write_comment"
          (fun v w => mkWriter (header_delimiter w) (data_delimiter w) v v
                        (header_quotechar w) (data_quotechar w) (data_formats w)
                        (header_names w) (header_include_names w)
                        (header_exclude_names w)) writer in
      let writer :=
        on_key kwargs "quotechar"
          (fun v w => mkWriter (header_delimiter w) (data_delimiter w)
                        (header_write_comment w) (data_write_comment w) v v
                        (data_formats w)
                        (header_names w) (header_include_names w)
                        (header_exclude_names w)) writer in
      let writer :=
        on_key kwargs "formats"
          (fun v w => mkWriter (header_delimiter w) (data_delimiter w)
                        (header_write_comment w) (data_write_comment w)
                        (header_quotechar w) (data_quotechar w) v
                        (header_names w) (header_include_names w)
                        (header_exclude_names w)) writer in
      let writer :=
        on_key kwargs "names"
          (fun v w => mkWriter (header_delimiter w) (data_delimiter w)
                        (header_write_comment w) (data_write_comment w)
                        (header_quotechar w) (data_quotechar w) (data_formats w)
                        v (header_include_names w) (header_exclude_names w)) writer in
      let writer :=
        on_key kwargs "include_names"
          (fun v w => mkWriter (header_delimiter w) (data_delimiter w)
                        (header_write_comment w) (data_write_comment w)
                        (header_quotechar w) (data_quotechar w) (data_formats w)
                        (header_names w) v (header_exclude_names w)) writer in
      let writer :=
        on_key kwargs "exclude_names"
          (fun v w => mkWriter (header_delimiter w) (data_delimiter w)
                        (header_write_comment w) (data_write_comment w)
                        (header_quotechar w) (data_quotechar w) (data_formats w)
                        (header_names w) (header_include_names w) v) writer in
      Ok writer
  end.

End UiTop.

(* ===================================================================== *)
(** * Properties *)
(* ===================================================================== *)

Example py_int_ex : map Py.py_int ["12"; " -7 "; "1.5"; "x"; ""; "+"]
                    = [Some 12%Z; Some (-7)%Z; None; None; None; None].
Proof. reflexivity. Qed.

Example py_float_ex :
  map (fun s => bool_decide (is_Some (Py.py_float s)))
      ["1"; "2.5"; ".5"; "1."; "1e5"; "-1.5E-3"; "NaN"; "+inf"; "x"; ""; "."; "1e"; "a1"; "1 2"]
  = [true; true; true; true; true; true; true; true; false; false; false; false; false; false].
Proof. reflexivity. Qed.

Example py_split_ex :
  (Py.py_split (Some ",") "a,,b,", Py.py_split (Some "::") "a::b:c::", Py.py_split (Some " ") "")
  = (Py.Ok ["a"; ""; "b"; ""], Py.Ok ["a"; "b:c"; ""], Py.Ok [""]).
Proof. reflexivity. Qed.

Example split_ws_ex : Py.split_ws "  a  b c " = ["a"; "b"; "c"].
Proof. reflexivity. Qed.

Example py_slice_ex :
  (Py.py_slice (Some 1%Z) None [1; 2; 3; 4], Py.py_slice (Some 1%Z) (Some (-1)%Z) [1; 2; 3; 4],
   Py.py_slice None (Some 2%Z) [1; 2; 3; 4], Py.py_slice (Some 5%Z) (Some 2%Z) [1; 2; 3; 4])
  = ([2; 3; 4], [2; 3], [1; 2], []).
Proof. reflexivity. Qed.

Import Py.

(** ** Whole reads *)

Example read_basic :
  (fun t => (Core.dtype_names t,
             map (fun n => Core.data <$> Core.columns t !! n) (Core.dtype_names t)))
    <$> match Core.read (Core.BasicReader Core.ws_splitter Core.ws_splitter)
                ["apples oranges pears"; "# a comment"; "1 2 3"; "4 5 6"] with
        | Ok t => Some t
        | Raise _ => None
        end
  = Some (["apples"; "oranges"; "pears"],
          [Some (Some (Core.IntData [1; 4]%Z)); Some (Some (Core.IntData [2; 5]%Z));
           Some (Some (Core.IntData [3; 6]%Z))]).
Proof. vm_compute. reflexivity. Qed.

Example read_no_header :
  Core.dtype_names
    <$> match Core.read (Core.NoHeaderReader Core.ws_splitter Core.ws_splitter)
                ["1 2 x"; "4 5 y"] with
        | Ok t => Some t
        | Raise _ => None
        end
  = Some ["col1"; "col2"; "col3"].
Proof. vm_compute. reflexivity. Qed.

(** ** The result monad *)

Lemma bind_Ok {A B} (r : result A) (k : A -> result B) (b : B) :
  r ≫= k = Ok b -> exists a, r = Ok a /\ k a = Ok b.
Proof. destruct r as [a|e]; simpl; [eauto | discriminate]. Qed.

Lemma map_result_Ok {A B} (f : A -> result B) (l : list A) (l' : list B) :
  map_result f l = Ok l' -> Forall2 (fun x y => f x = Ok y) l l'.
Proof.
  revert l'. induction l as [|x l IH]; simpl; intros l' H.
  - injection H as <-. constructor.
  - destruct (f x) as [y|e] eqn:Hx; simpl in H; [|discriminate].
    destruct (map_result f l) as [ys|e] eqn:Hl; simpl in H; [|discriminate].
    injection H as <-. constructor; auto.
Qed.

Lemma map_result_total {A B} (f : A -> result B) (g : A -> B) (l : list A) :
  Forall (fun x => f x = Ok (g x)) l -> map_result f l = Ok (map g l).
Proof.
  induction 1 as [|x l Hx _ IH]; simpl; [reflexivity|].
  rewrite Hx, IH. reflexivity.
Qed.

Lemma map_result_option {A} (f : string -> option A) (vals : list string) :
  map_result (Core.call_or_ValueError f) vals
  = match mapM f vals with
    | Some l => Ok l
    | None => Raise (ValueError "invalid literal")
    end.
Proof.
  induction vals as [|x vals IH]; simpl; [reflexivity|].
  unfold Core.call_or_ValueError at 1.
  destruct (f x) as [v|]; simpl; [|reflexivity].
  rewrite IH. destruct (mapM f vals); reflexivity.
Qed.

(** ** Conversion (C10) *)

Lemma try_default_converters int_ float_ n (vals : list string) :
  Core.try_converters n
    [Core.conv_int int_; Core.conv_float float_; Core.conv_id] vals
  = Ok (Spec.typed_values int_ float_ vals).
Proof.
  unfold Spec.typed_values. simpl.
  unfold Core.conv_int, Core.conv_float, Core.conv_id.
  rewrite !map_result_option.
  destruct (mapM int_ vals); simpl; [reflexivity|].
  destruct (mapM float_ vals); reflexivity.
Qed.

Lemma convert_vals_default int_ float_ (o : Core.Outputter) (cols : list Core.Column) :
  Core.default_converter o = [Core.conv_int int_; Core.conv_float float_; Core.conv_id] ->
  Forall (fun c => Core.converters o !! Core.name c = None /\ Core.data c = None) cols ->
  Core._convert_vals o cols
  = Ok (map (fun c => Core.set_data c
                        (Spec.typed_values int_ float_ (Core.str_vals c))) cols).
Proof.
  intros Hdef Hcols. unfold Core._convert_vals.
  apply map_result_total.
  eapply Forall_impl; [exact Hcols|].
  intros c [Hnone Hdata]. unfold Core.convert_col.
  rewrite Hnone, Hdata, Hdef, try_default_converters. reflexivity.
Qed.

(** C10. Under the default converter list (int, float, identity) a column
    with no entry in [converters] always converts: [_convert_vals] returns,
    never raises, and every such column receives its ints, else its
    floats, else its original strings. *)
Theorem default_conversion_succeeds
  (int_ : string -> option Z) (float_ : string -> option float_lit)
  (o : Core.Outputter) (cols : list Core.Column) :
  Core.default_converter o = Core.default_converter (Core.BaseOutputter_with int_ float_) ->
  Forall (fun c => Core.converters o !! Core.name c = None /\ Core.data c = None) cols ->
  Core._convert_vals o cols
  = Ok (map (fun c => Core.set_data c
                        (Spec.typed_values int_ float_ (Core.str_vals c))) cols).
Proof. apply convert_vals_default. Qed.

Lemma default_conversion_succeeds_witness :
  Core._convert_vals Core.BaseOutputter
    [Core.mkColumn "a" 0 ["1"; "2"; "x"] None None;
     Core.mkColumn "b" 1 ["1"; "2.5"; "3"] None None;
     Core.mkColumn "c" 2 ["1"; "2"; "-3"] None None]
  = Ok [Core.mkColumn "a" 0 ["1"; "2"; "x"] None (Some (Core.StrData ["1"; "2"; "x"]));
        Core.mkColumn "b" 1 ["1"; "2.5"; "3"] None
          (Some (Core.FloatData [FloatLit "1"; FloatLit "2.5"; FloatLit "3"]));
        Core.mkColumn "c" 2 ["1"; "2"; "-3"] None (Some (Core.IntData [1; 2; -3]%Z))].
Proof.
  apply (default_conversion_succeeds py_int py_float Core.BaseOutputter).
  - reflexivity.
  - repeat constructor.
Defined.

(** ** Columns through the stages *)

(** Two columns that differ at most in the strings and the mask that
    the row loop and [set_masks] fill in. *)
Definition same_col (c c' : Core.Column) : Prop :=
  Core.name c' = Core.name c /\ Core.index c' = Core.index c /\
  Core.data c' = Core.data c.

Lemma same_col_refl c : same_col c c.
Proof. repeat split. Qed.

Lemma same_col_trans c1 c2 c3 : same_col c1 c2 -> same_col c2 c3 -> same_col c1 c3.
Proof. intros (? & ? & ?) (? & ? & ?). repeat split; congruence. Qed.

Lemma same_cols_refl cols : Forall2 same_col cols cols.
Proof. induction cols; constructor; auto using same_col_refl. Qed.

Lemma same_cols_trans l1 l2 l3 :
  Forall2 same_col l1 l2 -> Forall2 same_col l2 l3 -> Forall2 same_col l1 l3.
Proof.
  intros H12. revert l3. induction H12; intros l3 H23; inversion H23; subst;
    constructor; eauto using same_col_trans.
Qed.

Lemma same_cols_names l1 l2 :
  Forall2 same_col l1 l2 -> map Core.name l2 = map Core.name l1.
Proof. induction 1 as [|c c' l l' (Hn & _) _ IH]; simpl; congruence. Qed.

Lemma same_cols_length l1 l2 : Forall2 same_col l1 l2 -> length l2 = length l1.
Proof. intros H. symmetry. eapply Forall2_length, H. Qed.

Lemma map_result_same_col (f : Core.Column -> result Core.Column) cols cols' :
  (forall c c', f c = Ok c' -> same_col c c') ->
  map_result f cols = Ok cols' -> Forall2 same_col cols cols'.
Proof.
  intros Hf H. apply map_result_Ok in H.
  eapply Forall2_impl; [exact H|]. auto.
Qed.

Lemma fill_items_same_col items c c' :
  Core.fill_items c items = Ok c' -> same_col c c'.
Proof.
  revert c. induction items as [|ix items IH]; simpl; intros c H.
  - injection H as <-. apply same_col_refl.
  - apply bind_Ok in H as (c1 & H1 & H2).
    apply same_col_trans with c1; [|auto].
    unfold Core.fill_item in H1.
    apply bind_Ok in H1 as (fv & _ & H1).
    destruct (fv !! ix.2); [|injection H1 as <-; apply same_col_refl].
    apply bind_Ok in H1 as (fv' & _ & H1).
    destruct (fv' !! ix.2); [|discriminate].
    injection H1 as <-. repeat split.
Qed.

Lemma set_masks_same_cols d cols cols' :
  Core.set_masks d cols = Ok cols' -> Forall2 same_col cols cols'.
Proof.
  unfold Core.set_masks. destruct (Core.fill_values d).
  - apply map_result_same_col. intros c c' H.
    apply fill_items_same_col in H. exact H.
  - intros H. injection H as <-. apply same_cols_refl.
Qed.

Lemma convert_vals_names o cols cols' :
  Core._convert_vals o cols = Ok cols' -> map Core.name cols' = map Core.name cols.
Proof.
  intros H. apply map_result_Ok in H.
  induction H as [|c c' l l' Hc _ IH]; simpl; [reflexivity|]. f_equal; [|exact IH].
  unfold Core.convert_col in Hc. destruct (Core.data c).
  - injection Hc as <-. reflexivity.
  - apply bind_Ok in Hc as (dv & _ & Hc). injection Hc as <-. reflexivity.
Qed.

Lemma row_step_same_cols i n cols row st' :
  Core.row_step (i, n, cols) row = Ok st' ->
  st'.1.1 = S i /\ Forall2 same_col cols st'.2 /\
  st'.1.2 = (if (i =? 0)%nat then length row else n).
Proof.
  unfold Core.row_step. case_decide as Hlen; [discriminate|].
  intros H. apply bind_Ok in H as (cols' & H1 & H2). injection H2 as <-.
  simpl. split; [reflexivity|]. split; [|reflexivity].
  revert H1. apply map_result_same_col. intros c c' Hc.
  destruct (row !! Core.index c); [|discriminate].
  injection Hc as <-. repeat split.
Qed.

Lemma row_loop_same_cols rows st cols' :
  Core.row_loop st rows = Ok cols' -> Forall2 same_col st.2 cols'.
Proof.
  revert st. induction rows as [|row rows IH]; simpl; intros st H.
  - injection H as <-. apply same_cols_refl.
  - apply bind_Ok in H as (st' & H1 & H2).
    destruct st as [[i n] cols].
    apply row_step_same_cols in H1 as (_ & H1 & _).
    eapply same_cols_trans; [exact H1|]. apply IH, H2.
Qed.

Lemma read_rows_same_cols cols g cols' :
  Core.read_rows cols g = Ok cols' -> Forall2 same_col cols cols'.
Proof.
  unfold Core.read_rows. intros H. apply bind_Ok in H as (c1 & H1 & H2).
  destruct (failure g); [discriminate|]. injection H2 as <-.
  apply row_loop_same_cols in H1. exact H1.
Qed.

Lemma dom_foldl_insert {V} (pairs : list (string * V)) (m : gmap string V) :
  dom (foldl (fun m kv => <[kv.1 := kv.2]> m) m pairs)
  = dom m ∪ list_to_set (map fst pairs).
Proof.
  revert m. induction pairs as [|[k v] pairs IH]; intros m; simpl.
  - set_solver.
  - rewrite IH, dom_insert_L. set_solver.
Qed.

Lemma dom_dict_of {V} (pairs : list (string * V)) :
  dom (Core.dict_of pairs) = list_to_set (map fst pairs).
Proof. unfold Core.dict_of. rewrite dom_foldl_insert. set_solver. Qed.

(** What a read that returns went through. *)
Lemma read_Ok r lines t :
  Core.read r lines = Ok t ->
  exists data_lines names cols,
    Core.get_data_lines (Core.reader_data r) lines = Ok data_lines /\
    Core.get_cols (Core.reader_header r)
      (gen_next (Core.get_str_vals (Core.reader_data r) data_lines)) lines
    = Ok (names, cols) /\
    Core.dtype_names t = map Core.name cols /\
    dom (Core.columns t) = list_to_set (map Core.name cols).
Proof.
  unfold Core.read. intros H.
  apply bind_Ok in H as (data_lines & Hdl & H).
  apply bind_Ok in H as ([names cols] & Hcols & H).
  apply bind_Ok in H as (cols1 & H1 & H).
  apply bind_Ok in H as (cols2 & H2 & H).
  unfold Core.Outputter_call in H.
  apply bind_Ok in H as (cols3 & H3 & H). injection H as <-.
  exists data_lines, names, cols. split; [exact Hdl|]. split; [exact Hcols|].
  apply read_rows_same_cols in H1. apply set_masks_same_cols in H2.
  apply convert_vals_names in H3.
  pose proof (same_cols_names _ _ (same_cols_trans _ _ _ H1 H2)) as Hn.
  rewrite <- H3 in Hn. simpl. split; [exact Hn|].
  rewrite dom_dict_of, map_map. simpl.
  change (map (fun x => Core.name x) cols3) with (map Core.name cols3).
  rewrite Hn. reflexivity.
Qed.

(** ** Column selection *)

Lemma make_cols_gen (g : nat -> nat) (names : list string) (S : gset string) :
  let cs := omap (fun ix : nat * string =>
                    if decide (ix.2 ∈ S) then Some (Core.Column_init ix.2 ix.1) else None)
                 (imap (fun i => pair (g i)) names) in
  map Core.name cs = filter (fun x => x ∈ S) names /\
  Forall (fun c => exists i x, c = Core.Column_init x (g i) /\ names !! i = Some x) cs.
Proof.
  revert g. induction names as [|x names IH]; intros g; simpl.
  - split; [reflexivity | constructor].
  - destruct (IH (g ∘ Datatypes.S)) as [IHn IHi]. simpl in IHn, IHi.
    assert (Hshift : Forall (fun c => exists i y, c = Core.Column_init y (g i) /\
                                                  (x :: names) !! i = Some y)
              (omap (fun ix : nat * string =>
                       if decide (ix.2 ∈ S) then Some (Core.Column_init ix.2 ix.1) else None)
                    (imap (fun i => pair (g (Datatypes.S i))) names))).
    { eapply Forall_impl; [exact IHi|]. intros c (i & y & Hc & Hl).
      exists (Datatypes.S i), y. split; assumption. }
    rewrite filter_cons. destruct (decide (x ∈ S)); simpl.
    + split; [f_equal; exact IHn|].
      constructor; [exists 0, x; split; reflexivity | exact Hshift].
    + split; [exact IHn | exact Hshift].
Qed.

Lemma make_cols_names names S :
  map Core.name (Core.make_cols names S) = filter (fun x => x ∈ S) names.
Proof. apply (make_cols_gen id names S). Qed.

Lemma make_cols_index names S :
  Forall (fun c => names !! Core.index c = Some (Core.name c)) (Core.make_cols names S).
Proof.
  eapply Forall_impl; [apply (make_cols_gen id names S)|].
  intros c (i & x & -> & H). exact H.
Qed.

Lemma make_cols_data names S :
  Forall (fun c => Core.data c = None) (Core.make_cols names S).
Proof.
  eapply Forall_impl; [apply (make_cols_gen id names S)|].
  intros c (i & x & -> & _). reflexivity.
Qed.

(** A [get_cols] that returns: the names agree in number with the first
    row, and the columns are those selected among the names. *)
Lemma get_cols_Ok h first_row lines names cols :
  Core.get_cols h first_row lines = Ok (names, cols) ->
  exists row0, first_row = Ok row0 /\ length names = length row0 /\
    cols = Core.make_cols names
             (Core.requested_names names (Core.include_names h) (Core.exclude_names h)).
Proof.
  unfold Core.get_cols. intros H.
  apply bind_Ok in H as (row0 & H0 & H).
  apply bind_Ok in H as (names' & _ & H).
  case_decide as Hlen; [discriminate|].
  injection H as <- <-. exists row0. split; [exact H0|]. split; [|reflexivity].
  destruct (decide (length names' = length row0)); [assumption | contradiction].
Qed.

Lemma elem_of_requested_names x names inc exc :
  x ∈ Core.requested_names names (Some inc) (Some exc)
  <-> x ∈ names /\ x ∈ inc /\ x ∉ exc.
Proof. unfold Core.requested_names. set_solver. Qed.

Lemma filter_only (A : string) (P : string -> Prop) `{forall x, Decision (P x)}
  (l : list string) :
  (forall x, x ∈ l -> P x <-> x = A) -> A ∈ l ->
  Forall (eq A) (filter P l) /\ filter P l ≠ [] /\ (NoDup l -> filter P l = [A]).
Proof.
  intros HP HA.
  assert (Hall : Forall (eq A) (filter P l)).
  { apply Forall_forall. intros x Hx. apply list_elem_of_filter in Hx as [Hx Hin].
    symmetry. apply (HP x Hin), Hx. }
  assert (Hne : filter P l ≠ []).
  { intros Hnil. assert (Hin : A ∈ filter P l).
    { apply list_elem_of_filter. split; [apply (HP A HA); reflexivity | exact HA]. }
    rewrite Hnil in Hin. inversion Hin. }
  split; [exact Hall|]. split; [exact Hne|].
  intros Hnd. apply (NoDup_filter P) in Hnd.
  destruct (filter P l) as [|x [|y l']]; [contradiction| |].
  - inversion Hall; subst. reflexivity.
  - inversion Hall as [|? ? Hx Hall']; subst. inversion Hall'; subst.
    apply NoDup_cons in Hnd as [Hnin _]. exfalso. apply Hnin. left.
Qed.

(** ** The row loop (C2) *)

Lemma row_step_ok k n cols row :
  (k ≠ 0 -> length row = n) ->
  Forall (fun c => Core.index c < length row) cols ->
  exists cols', Core.row_step (k, n, cols) row = Ok (S k, length row, cols') /\
                Forall2 same_col cols cols'.
Proof.
  intros Hn Hidx.
  set (f := fun col => match row !! Core.index col with
                       | Some v => Ok (Core.set_str_vals col (Core.str_vals col ++ [v]))
                       | None => Raise IndexError
                       end).
  set (g := fun col => Core.set_str_vals col
                         (Core.str_vals col ++ [default EmptyString (row !! Core.index col)])).
  assert (Hmap : map_result f cols = Ok (map g cols)).
  { apply map_result_total. eapply Forall_impl; [exact Hidx|].
    intros c Hc. unfold f, g.
    destruct (lookup_lt_is_Some_2 row (Core.index c) Hc) as [v ->]. reflexivity. }
  exists (map g cols). split.
  - unfold Core.row_step. fold f. rewrite Hmap. simpl.
    destruct (k =? 0)%nat eqn:Hk.
    + case_decide as Hlen; [contradiction | reflexivity].
    + apply Nat.eqb_neq in Hk. rewrite (Hn Hk).
      case_decide as Hlen; [contradiction | reflexivity].
  - eapply (map_result_same_col f); [|exact Hmap].
    intros c c'. unfold f. destruct (row !! Core.index c); [|discriminate].
    intros H. injection H as <-. repeat split.
Qed.

Lemma row_step_mismatch k n cols row :
  k ≠ 0 -> length row ≠ n ->
  Core.row_step (k, n, cols) row
  = Raise (InconsistentTableError
             (DataLine (length cols) (length row) k (map Core.name cols) row)).
Proof.
  intros Hk Hlen. unfold Core.row_step.
  apply Nat.eqb_neq in Hk. rewrite Hk.
  case_decide; [reflexivity | contradiction].
Qed.

Lemma same_cols_index_lt n cols cols' :
  Forall2 same_col cols cols' ->
  Forall (fun c => Core.index c < n) cols -> Forall (fun c => Core.index c < n) cols'.
Proof.
  induction 1 as [|c c' l l' (_ & Hi & _) _ IH]; intros H; [constructor|].
  inversion H; subst. constructor; [rewrite Hi; assumption | auto].
Qed.

Lemma row_loop_mismatch n rest :
  forall j rowj k cols,
    k ≠ 0 ->
    Forall (fun c => Core.index c < n) cols ->
    rest !! j = Some rowj ->
    length rowj ≠ n ->
    (forall j' r', j' < j -> rest !! j' = Some r' -> length r' = n) ->
    Core.row_loop (k, n, cols) rest
    = Raise (InconsistentTableError
               (DataLine (length cols) (length rowj) (k + j)
                         (map Core.name cols) rowj)).
Proof.
  induction rest as [|r rest IH]; intros j rowj k cols Hk Hidx Hj Hlen Hbefore.
  - rewrite lookup_nil in Hj. discriminate.
  - destruct j as [|j]; simpl in Hj.
    + injection Hj as ->. cbn [Core.row_loop].
      rewrite (row_step_mismatch k n cols rowj Hk Hlen), Nat.add_0_r. reflexivity.
    + assert (Hr : length r = n) by (apply (Hbefore 0 r); [lia | reflexivity]).
      destruct (row_step_ok k n cols r) as (cols' & Hstep & Hsame).
      { intros _. exact Hr. }
      { rewrite Hr. exact Hidx. }
      cbn [Core.row_loop]. rewrite Hstep. cbn [mbind result_bind bind]. rewrite Hr.
      rewrite (IH j rowj (S k) cols').
      * rewrite (same_cols_length _ _ Hsame), (same_cols_names _ _ Hsame).
        replace (S k + j) with (k + S j) by lia. reflexivity.
      * lia.
      * eapply same_cols_index_lt; eassumption.
      * exact Hj.
      * exact Hlen.
      * intros j' r' Hlt Hl. apply (Hbefore (S j') r'); [lia | exact Hl].
Qed.

(** C2, as the code has it. When the data lines are located and the
    header is resolved (its names agree in number with the first row),
    and row [i] is the first row whose field count differs from row 0's,
    [read] raises [InconsistentTableError] with the data-line message
    for row [i]; it returns no table. *)
Theorem read_row_mismatch (r : Core.Reader) (lines data_lines names : list string)
  (cols : list Core.Column) (i : nat) :
  Core.get_data_lines (Core.reader_data r) lines = Ok data_lines ->
  Core.get_cols (Core.reader_header r)
    (gen_next (Core.get_str_vals (Core.reader_data r) data_lines)) lines
  = Ok (names, cols) ->
  Spec.first_mismatch (yielded (Core.get_str_vals (Core.reader_data r) data_lines)) i ->
  exists rowi,
    yielded (Core.get_str_vals (Core.reader_data r) data_lines) !! i = Some rowi /\
    Core.read r lines
    = Raise (InconsistentTableError
               (DataLine (length cols) (length rowi) i (map Core.name cols) rowi)).
Proof.
  intros Hdl Hcols (row0 & rowi & H0 & Hi & Hlen & Hbefore).
  exists rowi. split; [exact Hi|].
  unfold Core.read. rewrite Hdl. simpl. rewrite Hcols. simpl.
  set (g := Core.get_str_vals (Core.reader_data r) data_lines) in *.
  apply get_cols_Ok in Hcols as (row0' & Hnext & Hnames & ->).
  destruct (yielded g) as [|r0 rest] eqn:Hy; [discriminate|].
  simpl in H0. injection H0 as ->.
  unfold gen_next in Hnext. rewrite Hy in Hnext. injection Hnext as <-.
  destruct i as [|i]; [simpl in Hi; injection Hi as ->; contradiction|].
  simpl in Hi.
  set (cols := Core.make_cols names _) in *.
  assert (Hidx : Forall (fun c => Core.index c < length row0) cols).
  { eapply Forall_impl; [apply make_cols_index|]. intros c Hc. simpl in Hc.
    rewrite <- Hnames. eapply lookup_lt_Some, Hc. }
  destruct (row_step_ok 0 0 cols row0) as (cols' & Hstep & Hsame);
    [intros []; reflexivity | exact Hidx |].
  unfold Core.read_rows. rewrite Hy. cbn [Core.row_loop]. rewrite Hstep.
  cbn [mbind result_bind bind].
  rewrite (row_loop_mismatch (length row0) rest i rowi 1 cols').
  - simpl. rewrite (same_cols_length _ _ Hsame), (same_cols_names _ _ Hsame).
    reflexivity.
  - lia.
  - eapply same_cols_index_lt; eassumption.
  - exact Hi.
  - exact Hlen.
  - intros j' r' Hlt Hl. apply (Hbefore (S j') r'); [lia | exact Hl].
Qed.

Lemma read_row_mismatch_witness :
  Core.read (Core.BasicReader Core.ws_splitter Core.ws_splitter)
    ["a b"; "1 2"; "4 5 6"; "7"]
  = Raise (InconsistentTableError (DataLine 2 3 1 ["a"; "b"] ["4"; "5"; "6"])).
Proof.
  destruct (read_row_mismatch
              (Core.BasicReader Core.ws_splitter Core.ws_splitter)
              ["a b"; "1 2"; "4 5 6"; "7"] ["1 2"; "4 5 6"; "7"] ["a"; "b"]
              [Core.Column_init "a" 0; Core.Column_init "b" 1] 1)
    as (rowi & Hi & Hread).
  - reflexivity.
  - vm_compute. reflexivity.
  - exists ["1"; "2"], ["4"; "5"; "6"].
    split; [reflexivity|]. split; [reflexivity|]. split; [simpl; lia|].
    intros j rowj Hj Hl. destruct j as [|j]; [|lia].
    vm_compute in Hl. injection Hl as <-. reflexivity.
  - vm_compute in Hi. injection Hi as <-. exact Hread.
Defined.

(** C2 as stated fails when the header is what disagrees: with header
    [a b] and rows [1 2 3], [4 5], row 1 is the first row that differs
    from row 0, and [read] raises the first-line error of [get_cols];
    with a header line that is not there, it raises [ValueError]. *)
Lemma read_row_mismatch_not_reported :
  let r := Core.BasicReader Core.ws_splitter Core.ws_splitter in
  let r' := Core.mkReader
              (Core.mkHeader (Core.LInt 5) (Some Core.re_hash) Core.ws_splitter
                             None None None)
              (Core.reader_data r) Core.BaseOutputter in
  let lines := ["a b"; "1 2 3"; "4 5"] in
  Core.get_data_lines (Core.reader_data r) lines = Ok ["1 2 3"; "4 5"] /\
  Spec.first_mismatch
    (yielded (Core.get_str_vals (Core.reader_data r) ["1 2 3"; "4 5"])) 1 /\
  Core.read r lines
  = Raise (InconsistentTableError (FirstLine 2 3 ["a"; "b"] ["1"; "2"; "3"])) /\
  Core.read r' lines = Raise (ValueError "No header line found in table").
Proof.
  intros r r' lines. split; [reflexivity|]. split; [|split; vm_compute; reflexivity].
  exists ["1"; "2"; "3"], ["4"; "5"].
  split; [reflexivity|]. split; [reflexivity|]. split; [simpl; lia|].
  intros j rowj Hj Hl. destruct j as [|j]; [|lia].
  vm_compute in Hl. injection Hl as <-. reflexivity.
Qed.

(** ** Reading selected columns (C9) *)

Lemma row_loop_ok n rows :
  forall k cols,
    k ≠ 0 ->
    Forall (fun row => length row = n) rows ->
    Forall (fun c => Core.index c < n) cols ->
    exists cols', Core.row_loop (k, n, cols) rows = Ok cols' /\
                  Forall2 same_col cols cols'.
Proof.
  induction rows as [|row rows IH]; intros k cols Hk Hrows Hidx.
  - exists cols. split; [reflexivity | apply same_cols_refl].
  - apply Forall_cons in Hrows as [Hrow Hrows].
    destruct (row_step_ok k n cols row) as (cols1 & Hstep & Hsame1);
      [intros _; exact Hrow | rewrite Hrow; exact Hidx |].
    destruct (IH (S k) cols1) as (cols' & Hloop & Hsame');
      [lia | exact Hrows | eapply same_cols_index_lt; eassumption |].
    exists cols'. split; [|eapply same_cols_trans; eassumption].
    cbn [Core.row_loop]. rewrite Hstep. cbn [mbind result_bind bind].
    rewrite Hrow. exact Hloop.
Qed.

(** A read returns when the stages before the row loop do, the rows
    agree in length with the header, the splitter does not fail, no fill
    rule is set and the columns convert by default. *)
Lemma read_returns r lines data_lines names cols int_ float_ :
  Core.get_data_lines (Core.reader_data r) lines = Ok data_lines ->
  Core.get_cols (Core.reader_header r)
    (gen_next (Core.get_str_vals (Core.reader_data r) data_lines)) lines
  = Ok (names, cols) ->
  Forall (fun row => length row = length names)
    (yielded (Core.get_str_vals (Core.reader_data r) data_lines)) ->
  failure (Core.get_str_vals (Core.reader_data r) data_lines) = None ->
  Core.fill_values (Core.reader_data r) = None ->
  Core.default_converter (Core.reader_outputter r)
  = [Core.conv_int int_; Core.conv_float float_; Core.conv_id] ->
  Forall (fun c => Core.converters (Core.reader_outputter r) !! Core.name c = None) cols ->
  exists t, Core.read r lines = Ok t.
Proof.
  intros Hdl Hcols Hrows Hfail Hfill Hdef Hconv.
  unfold Core.read. rewrite Hdl. cbn [mbind result_bind bind]. rewrite Hcols.
  cbn [mbind result_bind bind].
  set (g := Core.get_str_vals (Core.reader_data r) data_lines) in *.
  apply get_cols_Ok in Hcols as (row0 & Hnext & Hnames & Hcols).
  assert (Hidx : Forall (fun c => Core.index c < length names) cols).
  { rewrite Hcols. eapply Forall_impl; [apply make_cols_index|].
    intros c Hc. eapply lookup_lt_Some, Hc. }
  assert (Hdata : Forall (fun c => Core.data c = None) cols).
  { rewrite Hcols. apply make_cols_data. }
  clear Hcols.
  assert (Hloop : exists cols', Core.row_loop (0, 0, cols) (yielded g) = Ok cols' /\
                                Forall2 same_col cols cols').
  { destruct (yielded g) as [|r0 rest] eqn:Hy.
    - exists cols. split; [reflexivity | apply same_cols_refl].
    - apply Forall_cons in Hrows as [Hr0 Hrest].
      destruct (row_step_ok 0 0 cols r0) as (cols1 & Hstep & Hsame1);
        [intros []; reflexivity | rewrite Hr0; exact Hidx |].
      destruct (row_loop_ok (length names) rest 1 cols1) as (cols' & Hl & Hsame');
        [lia | exact Hrest | eapply same_cols_index_lt; eassumption |].
      exists cols'. split; [|eapply same_cols_trans; eassumption].
      cbn [Core.row_loop]. rewrite Hstep. cbn [mbind result_bind bind].
      rewrite Hr0. exact Hl. }
  destruct Hloop as (cols' & Hloop & Hsame).
  unfold Core.read_rows. rewrite Hloop. cbn [mbind result_bind bind].
  rewrite Hfail. cbn [mbind result_bind bind].
  unfold Core.set_masks. rewrite Hfill. cbn [mbind result_bind bind].
  unfold Core.Outputter_call.
  rewrite (convert_vals_default int_ float_ _ cols' Hdef).
  - cbn [mbind result_bind bind]. eexists. reflexivity.
  - clear Hloop. induction Hsame as [|c c' l l' (Hn & _ & Hd) _ IH]; [constructor|].
    apply Forall_cons in Hconv as [Hc Hconv]. apply Forall_cons in Hidx as [_ Hidx].
    apply Forall_cons in Hdata as [Hdc Hdata].
    constructor; [split; congruence | apply IH; assumption].
Qed.

(** C9. With [include_names] the set {A, B} and [exclude_names] the set
    {B}, over a header that has the names A and B, in any order: a read
    that returns, returns the table of column A alone (the only key of
    the table is A, every entry of [dtype.names] is A, and [dtype.names]
    is exactly [A] when the header names are distinct); and the read
    does return when the rows agree in length with the header, the
    splitter does not fail, no fill rule is set and column A converts
    by default. *)
Theorem read_include_exclude (r : Core.Reader) (lines data_lines : list string)
  (A B : string) (incl excl names : list string) (cols : list Core.Column) :
  A ≠ B ->
  Core.include_names (Core.reader_header r) = Some incl ->
  list_to_set incl = ({[A; B]} : gset string) ->
  Core.exclude_names (Core.reader_header r) = Some excl ->
  list_to_set excl = ({[B]} : gset string) ->
  Core.get_data_lines (Core.reader_data r) lines = Ok data_lines ->
  Core.get_cols (Core.reader_header r)
    (gen_next (Core.get_str_vals (Core.reader_data r) data_lines)) lines
  = Ok (names, cols) ->
  A ∈ names -> B ∈ names ->
  (forall t, Core.read r lines = Ok t ->
     dom (Core.columns t) = {[A]} /\
     Forall (eq A) (Core.dtype_names t) /\
     Core.dtype_names t ≠ [] /\
     (NoDup names -> Core.dtype_names t = [A])) /\
  (Forall (fun row => length row = length names)
     (yielded (Core.get_str_vals (Core.reader_data r) data_lines)) ->
   failure (Core.get_str_vals (Core.reader_data r) data_lines) = None ->
   Core.fill_values (Core.reader_data r) = None ->
   Core.converters (Core.reader_outputter r) !! A = None ->
   (exists int_ float_,
       Core.default_converter (Core.reader_outputter r)
       = [Core.conv_int int_; Core.conv_float float_; Core.conv_id]) ->
   exists t, Core.read r lines = Ok t).
Proof.
  intros HAB Hinc Hincl Hexc Hexcl Hdl Hcols HA HB.
  pose proof Hcols as Hcols0.
  apply get_cols_Ok in Hcols as (row0 & _ & _ & Hcols).
  rewrite Hinc, Hexc in Hcols.
  set (req := Core.requested_names names (Some incl) (Some excl)) in *.
  assert (Hreq : forall x, x ∈ names -> x ∈ req <-> x = A).
  { intros x Hx. unfold req. rewrite elem_of_requested_names.
    assert (Hi : x ∈ incl <-> x = A \/ x = B).
    { rewrite <- (elem_of_list_to_set (C := gset string)), Hincl. set_solver. }
    assert (He : x ∈ excl <-> x = B).
    { rewrite <- (elem_of_list_to_set (C := gset string)), Hexcl. set_solver. }
    rewrite Hi, He. split.
    - intros (_ & [?|?] & ?); [assumption | contradiction].
    - intros ->. split; [exact Hx|]. split; [left; reflexivity | exact HAB]. }
  destruct (filter_only A (fun x => x ∈ req) names Hreq HA) as (Hall & Hne & Hnd).
  assert (Hns : map Core.name cols = filter (fun x => x ∈ req) names).
  { rewrite Hcols. apply make_cols_names. }
  split.
  - intros t Hread.
    apply read_Ok in Hread as (dl' & names' & cols' & Hdl' & Hcols' & Hnames & Hdom).
    rewrite Hdl in Hdl'. injection Hdl' as <-.
    rewrite Hcols0 in Hcols'. injection Hcols' as <- <-.
    rewrite Hns in Hnames, Hdom. rewrite Hnames, Hdom.
    split; [|split; [exact Hall | split; [exact Hne | exact Hnd]]].
    apply set_eq. intros x. rewrite elem_of_list_to_set, elem_of_singleton. split.
    + intros Hx. eapply Forall_forall in Hall; [|exact Hx]. congruence.
    + intros ->. destruct (filter (fun x => x ∈ req) names) as [|y l] eqn:E;
        [contradiction|].
      inversion Hall; subst. left.
  - intros Hrows Hfail Hfill Hconv (int_ & float_ & Hdef).
    apply (read_returns r lines data_lines names cols int_ float_); try assumption.
    rewrite <- Hns in Hall. clear -Hall Hconv.
    induction cols as [|c cols IH]; [constructor|].
    simpl in Hall. apply Forall_cons in Hall as [Hc Hall].
    constructor; [cbn beta; rewrite <- Hc; exact Hconv | apply IH, Hall].
Qed.

Lemma read_include_exclude_witness :
  let r := Core.mkReader
             (Core.mkHeader (Core.LInt 0) (Some Core.re_hash) Core.ws_splitter
                            None (Some ["a"; "b"]) (Some ["b"]))
             (Core.mkData (Core.LInt 1) Core.LNone (Some Core.re_hash)
                          Core.ws_splitter None)
             Core.BaseOutputter in
  exists t, Core.read r ["c b a"; "1 2 3"; "4 5 6"] = Ok t /\
    dom (Core.columns t) = {["a"]} /\ Core.dtype_names t = ["a"] /\
    (Core.data <$> Core.columns t !! "a") = Some (Some (Core.IntData [3; 6]%Z)).
Proof.
  intros r.
  destruct (read_include_exclude r ["c b a"; "1 2 3"; "4 5 6"] ["1 2 3"; "4 5 6"]
              "a" "b" ["a"; "b"] ["b"] ["c"; "b"; "a"]
              [Core.Column_init "a" 2]) as (Hpart & Htotal).
  - discriminate.
  - reflexivity.
  - vm_compute. reflexivity.
  - reflexivity.
  - vm_compute. reflexivity.
  - vm_compute. reflexivity.
  - vm_compute. reflexivity.
  - set_solver.
  - set_solver.
  - destruct Htotal as (t & Hread).
    + repeat (constructor; [vm_compute; reflexivity|]). constructor.
    + vm_compute. reflexivity.
    + reflexivity.
    + vm_compute. reflexivity.
    + exists py_int, py_float. reflexivity.
    + exists t. split; [exact Hread|].
      destruct (Hpart t Hread) as (Hdom & _ & _ & Hnames).
      split; [exact Hdom|]. split.
      * apply Hnames. repeat constructor; set_solver.
      * vm_compute in Hread. injection Hread as <-. vm_compute. reflexivity.
Defined.

(** ** The acceptance heuristic (C6) *)

Lemma in_bads_char (c : ascii) :
  bool_decide (String c EmptyString ∈ Ui.bads) = true <-> c ∈ Spec.bad_chars.
Proof.
  rewrite bool_decide_eq_true. unfold Ui.bads, Spec.bad_chars, Ui.tab, Ui.dquote.
  rewrite !elem_of_cons, !elem_of_nil.
  split.
  - intros H. repeat destruct H as [H|H]; try (injection H as ->); tauto.
  - intros H. repeat destruct H as [H|H]; try (subst c); tauto.
Qed.

Lemma first_char_begins (n : string) (c : ascii) :
  Ui.first_char n = Some (String c EmptyString) <-> Spec.begins_with c n.
Proof.
  unfold Spec.begins_with. destruct n as [|a n]; simpl; split.
  - discriminate.
  - intros [rest H]. discriminate.
  - intros H. injection H as ->. eauto.
  - intros [rest H]. injection H as -> _. reflexivity.
Qed.

Lemma last_char_ends (n : string) (c : ascii) :
  Ui.last_char n = Some (String c EmptyString) <-> Spec.ends_with c n.
Proof.
  unfold Spec.ends_with. induction n as [|a n IH].
  - simpl. split; [discriminate|]. intros [[|b front] H]; discriminate.
  - destruct n as [|b n].
    + simpl. split.
      * intros H. injection H as ->. exists EmptyString. reflexivity.
      * intros [[|x [|y front]] H]; simpl in H; try discriminate.
        injection H as ->. reflexivity.
    + change (Ui.last_char (String a (String b n))) with (Ui.last_char (String b n)).
      rewrite IH. split.
      * intros [front H]. exists (String a front). simpl. rewrite H. reflexivity.
      * intros [[|x front] H]; simpl in H; [discriminate|].
        injection H as -> H. exists front. exact H.
Qed.

Lemma in_bads_first (n : string) :
  Ui.in_bads (Ui.first_char n) = true
  <-> exists c, c ∈ Spec.bad_chars /\ Spec.begins_with c n.
Proof.
  split.
  - destruct n as [|a n]; simpl; [discriminate|]. intros H.
    exists a. split; [apply in_bads_char, H | exists n; reflexivity].
  - intros (c & Hc & Hb). apply first_char_begins in Hb. rewrite Hb. simpl.
    apply in_bads_char, Hc.
Qed.

Lemma last_char_single (n : string) (s : string) :
  Ui.last_char n = Some s -> exists c, s = String c EmptyString.
Proof.
  induction n as [|a n IH]; simpl; [discriminate|].
  destruct n as [|b n]; [intros H; injection H as <-; eauto | exact IH].
Qed.

Lemma in_bads_last (n : string) :
  Ui.in_bads (Ui.last_char n) = true
  <-> exists c, c ∈ Spec.bad_chars /\ Spec.ends_with c n.
Proof.
  split.
  - destruct (Ui.last_char n) as [s|] eqn:E; simpl; [|discriminate]. intros H.
    destruct (last_char_single n s E) as [c ->].
    exists c. split; [apply in_bads_char, H | apply last_char_ends, E].
  - intros (c & Hc & Hb). apply last_char_ends in Hb. rewrite Hb. simpl.
    apply in_bads_char, Hc.
Qed.

Lemma bad_name_spec (n : string) :
  Ui.bad_name n = true
  <-> is_Some (py_float n) \/ n = EmptyString \/
      exists c, c ∈ Spec.bad_chars /\ (Spec.begins_with c n \/ Spec.ends_with c n).
Proof.
  unfold Ui.bad_name, Ui._is_number.
  rewrite !orb_true_iff, in_bads_first, in_bads_last, Nat.eqb_eq.
  assert (Hf : (match py_float n with Some _ => true | None => false end) = true
               <-> is_Some (py_float n)).
  { destruct (py_float n); split; eauto; try discriminate. intros [? ?]; discriminate. }
  assert (He : String.length n = 0 <-> n = EmptyString).
  { destruct n; simpl; split; congruence. }
  rewrite Hf, He. split.
  - intros [[[?|?]|(c & ? & ?)]|(c & ? & ?)]; eauto 8.
  - intros [?|[?|(c & ? & [?|?])]]; eauto 8.
Qed.

(** The test of the code is the heuristic of the specification. *)
Lemma rejected_spec (col_names : list string) :
  Ui.rejected col_names = true <-> Spec.garbage col_names.
Proof.
  unfold Ui.rejected, Spec.garbage.
  rewrite orb_true_iff, Nat.leb_le, existsb_exists.
  split.
  - intros [H|(n & Hin & Hbad)]; [left; lia | right].
    exists n. split; [apply list_elem_of_In, Hin | apply bad_name_spec, Hbad].
  - intros [H|(n & Hin & Hbad)]; [left; lia | right].
    exists n. split; [apply list_elem_of_In, Hin | apply bad_name_spec, Hbad].
Qed.

(** C6. A candidate whose read returns is rejected, and the loop goes on
    with the next candidate, whenever it produced fewer than 2 columns or
    one of its column names reads as a number, is empty, or begins or
    ends with a space, comma, pipe, tab, single or double quote; so it is
    for the column names 1 and 2. *)
Theorem guess_rejects_garbage {T : Type}
  (attempt : gmap string Ui.kwval -> result (T * list string))
  (read_kwargs c : gmap string Ui.kwval) (rest : list (gmap string Ui.kwval))
  (dat : T) (col_names : list string) :
  attempt (Ui.merge_kwargs read_kwargs c) = Ok (dat, col_names) ->
  Spec.garbage col_names \/ col_names = ["1"; "2"] ->
  Ui.try_candidate attempt (Ui.merge_kwargs read_kwargs c) = None /\
  Ui.guess_loop attempt read_kwargs (c :: rest)
  = Ui.guess_loop attempt read_kwargs rest.
Proof.
  intros Hattempt Hbad.
  assert (Hrej : Ui.rejected col_names = true).
  { destruct Hbad as [Hg| ->]; [apply rejected_spec, Hg | reflexivity]. }
  assert (Htry : Ui.try_candidate attempt (Ui.merge_kwargs read_kwargs c) = None).
  { unfold Ui.try_candidate. rewrite Hattempt, Hrej. reflexivity. }
  split; [exact Htry|].
  cbn [Ui.guess_loop]. rewrite Htry. reflexivity.
Qed.

Lemma guess_rejects_garbage_witness :
  let attempt := fun _ : gmap string Ui.kwval => Ok ("the table", ["1"; "2"]) in
  let read_kwargs : gmap string Ui.kwval := {[ "Outputter" := Ui.VObj "BaseOutputter" ]} in
  let c : gmap string Ui.kwval := {[ "Reader" := Ui.VReader Ui.Rdb ]} in
  Ui.try_candidate attempt (Ui.merge_kwargs read_kwargs c) = None /\
  Ui.guess_loop attempt read_kwargs [c] = Ui.guess_loop attempt read_kwargs [].
Proof.
  intros attempt read_kwargs c.
  apply (guess_rejects_garbage attempt read_kwargs c [] "the table" ["1"; "2"]).
  - reflexivity.
  - left. right. exists "1". split; [left | left; eexists; vm_compute; reflexivity].
Defined.

(** ** Merging the caller's keywords (C4) *)

Lemma merge_item_union (g : gmap string Ui.kwval) k v :
  Ui.merge_item g (k, v) = g ∪ {[k := v]}.
Proof.
  unfold Ui.merge_item. destruct (g !! k) as [v'|] eqn:E.
  - assert (Hg : g = g ∪ {[k := v]}).
    { apply map_eq. intros i. rewrite lookup_union.
      destruct (decide (i = k)) as [->|Hne].
      - rewrite E, lookup_singleton_eq. reflexivity.
      - rewrite lookup_singleton_ne by congruence. destruct (g !! i); reflexivity. }
    case_decide; exact Hg.
  - apply insert_union_singleton_r, E.
Qed.

Lemma merge_items_union items (g : gmap string Ui.kwval) :
  Ui.merge_items items g = g ∪ list_to_map items.
Proof.
  unfold Ui.merge_items. revert g.
  induction items as [|[k v] items IH]; intros g; cbn [foldl].
  - rewrite list_to_map_nil, (right_id_L ∅ (∪)). reflexivity.
  - rewrite IH, merge_item_union, list_to_map_cons, <- (assoc_L (∪)),
      <- insert_union_singleton_l.
    reflexivity.
Qed.

(** The merged keywords are the candidate's own, completed by the
    caller's for the keys the candidate does not fix. *)
Lemma merge_kwargs_union (read_kwargs guess_kwargs : gmap string Ui.kwval) :
  Ui.merge_kwargs read_kwargs guess_kwargs = guess_kwargs ∪ read_kwargs.
Proof.
  unfold Ui.merge_kwargs. rewrite merge_items_union, list_to_map_to_list.
  reflexivity.
Qed.

(** C4, on the code. The [continue] of the inner loop does not leave the
    candidate: a candidate that fixes [delimiter] to the pipe is tried,
    with its own delimiter, for a caller who asked for the comma, and its
    table is what the guess returns. For every caller and candidate the
    keywords tried are the candidate's, completed by the caller's. *)
Theorem guess_conflict_still_tried :
  let read_kwargs : gmap string Ui.kwval :=
    {[ "Outputter" := Ui.VObj "BaseOutputter"; "delimiter" := Ui.VStr "," ]} in
  let candidate : gmap string Ui.kwval :=
    {[ "Reader" := Ui.VReader Ui.CommentedHeader;
       "delimiter" := Ui.VStr "|"; "quotechar" := Ui.VStr Ui.dquote ]} in
  let attempt := fun kw : gmap string Ui.kwval =>
    if decide (kw !! "delimiter" = Some (Ui.VStr "|"))
    then Ok ("split on pipes", ["a"; "b"])
    else Raise (InconsistentTableError UnableToGuess) in
  candidate ∈ Ui.candidates read_kwargs /\
  Ui.merge_kwargs read_kwargs candidate
  = {[ "Reader" := Ui.VReader Ui.CommentedHeader;
       "delimiter" := Ui.VStr "|"; "quotechar" := Ui.VStr Ui.dquote;
       "Outputter" := Ui.VObj "BaseOutputter" ]} /\
  Ui._guess attempt read_kwargs = Ok "split on pipes" /\
  (forall rk g : gmap string Ui.kwval, Ui.merge_kwargs rk g = g ∪ rk).
Proof.
  intros read_kwargs candidate attempt.
  split; [|split; [|split]].
  - unfold Ui.candidates. apply elem_of_app. right.
    apply list_elem_of_lookup. exists 5. vm_compute. reflexivity.
  - rewrite merge_kwargs_union. vm_compute. reflexivity.
  - unfold Ui._guess, Ui.candidates.
    cbn [Ui.guess_loop app]. rewrite !merge_kwargs_union. vm_compute. reflexivity.
  - apply merge_kwargs_union.
Qed.

(** ** The order of the candidates (C5) *)

Lemma try_candidate_passed_over {T} (attempt : gmap string Ui.kwval -> result (T * list string)) kw :
  Spec.passed_over (attempt kw) -> Ui.try_candidate attempt kw = None.
Proof.
  unfold Spec.passed_over, Ui.try_candidate.
  destruct (attempt kw) as [[dat col_names]|e]; intros ->; reflexivity.
Qed.

Lemma guess_loop_first_accepted {T}
  (attempt : gmap string Ui.kwval -> result (T * list string))
  read_kwargs pre c post dat col_names :
  Forall (fun c' => Spec.passed_over (attempt (Ui.merge_kwargs read_kwargs c'))) pre ->
  attempt (Ui.merge_kwargs read_kwargs c) = Ok (dat, col_names) ->
  Ui.rejected col_names = false ->
  Ui.guess_loop attempt read_kwargs (pre ++ c :: post) = Some (Ok dat).
Proof.
  intros Hpre Hc Hacc. induction Hpre as [|c' pre Hc' _ IH]; cbn [app Ui.guess_loop].
  - unfold Ui.try_candidate. rewrite Hc, Hacc. reflexivity.
  - rewrite (try_candidate_passed_over attempt _ Hc'). exact IH.
Qed.

(** C5, as the code has it. The candidates are the caller's keywords,
    then the presets RDB, tab-delimited, CDS, DAOphot, IPAC, then each of
    commented-header, basic, no-header with each delimiter (pipe, comma,
    space, backslash-s) and each quote character (double, single), the
    reader varying slowest; they are tried in that order: the guess
    returns the table of the first candidate that reads and is accepted
    when all before it are passed over. *)
Theorem guess_candidates_in_order {T : Type}
  (attempt : gmap string Ui.kwval -> result (T * list string))
  (read_kwargs c : gmap string Ui.kwval) (pre post : list (gmap string Ui.kwval))
  (dat : T) (col_names : list string) :
  read_kwargs :: Spec.ranked_presets = pre ++ c :: post ->
  Forall (fun c' => Spec.passed_over (attempt (Ui.merge_kwargs read_kwargs c'))) pre ->
  attempt (Ui.merge_kwargs read_kwargs c) = Ok (dat, col_names) ->
  Ui.rejected col_names = false ->
  Ui.candidates read_kwargs = read_kwargs :: Spec.ranked_presets /\
  Ui._guess attempt read_kwargs = Ok dat.
Proof.
  intros Hsplit Hpre Hc Hacc.
  assert (Hlist : Ui.candidates read_kwargs = read_kwargs :: Spec.ranked_presets).
  { unfold Ui.candidates. cbn [app]. f_equal. }
  split; [exact Hlist|].
  unfold Ui._guess. rewrite Hlist, Hsplit.
  rewrite (guess_loop_first_accepted attempt read_kwargs pre c post dat col_names Hpre Hc Hacc).
  reflexivity.
Qed.

Lemma guess_candidates_in_order_witness :
  let read_kwargs : gmap string Ui.kwval := {[ "Outputter" := Ui.VObj "BaseOutputter" ]} in
  let attempt := fun kw : gmap string Ui.kwval =>
    if decide (kw !! "Reader" = Some (Ui.VReader Ui.Tab))
    then Ok ("read as Tab", ["a"; "b"])
    else if decide (kw !! "Reader" = Some (Ui.VReader Ui.Cds))
    then Ok ("read as Cds", ["a"; "b"])
    else Raise (InconsistentTableError UnableToGuess) in
  Ui.candidates read_kwargs = read_kwargs :: Spec.ranked_presets /\
  Ui._guess attempt read_kwargs = Ok "read as Tab".
Proof.
  intros read_kwargs attempt.
  apply (guess_candidates_in_order attempt read_kwargs (Spec.reader_only Ui.Tab)
           [read_kwargs; Spec.reader_only Ui.Rdb] (drop 2 Spec.ranked_presets)
           "read as Tab" ["a"; "b"]).
  - reflexivity.
  - repeat (constructor; [vm_compute; reflexivity|]). constructor.
  - vm_compute. reflexivity.
  - reflexivity.
Defined.

(** C5 as stated fails on the first preset and on the fifth: the code
    ranks RDB before tab-delimited and has IPAC after DAOphot, where the
    listed order has the first product entry. *)
Lemma guess_presets_not_as_listed :
  Ui._get_guess_kwargs_list !! 0 = Some (Spec.reader_only Ui.Rdb) /\
  Spec.listed_presets !! 0 = Some (Spec.reader_only Ui.Tab) /\
  Ui._get_guess_kwargs_list !! 4 = Some (Spec.reader_only Ui.Ipac) /\
  Spec.listed_presets !! 4 = Some (Spec.preset Ui.CommentedHeader "|" Ui.dquote) /\
  length Ui._get_guess_kwargs_list = 29 /\ length Spec.listed_presets = 28 /\
  bool_decide (Ui._get_guess_kwargs_list = Spec.listed_presets) = false.
Proof. repeat split; vm_compute; reflexivity. Qed.

(** ** Conversion failures under guessing (C3) *)

Lemma try_converters_exhausted n convs vals :
  Spec.exhausted convs vals ->
  Core.try_converters n convs vals
  = Raise (ValueError ("Column " +:+ n +:+ " failed to convert")).
Proof.
  induction 1 as [|conv convs (m & [Hc|Hc]) _ IH]; cbn [Core.try_converters].
  - reflexivity.
  - rewrite Hc. exact IH.
  - rewrite Hc. exact IH.
Qed.

Lemma try_candidate_None {T} (attempt : gmap string Ui.kwval -> result (T * list string)) kw :
  Ui.try_candidate attempt kw = None <-> Spec.passed_over (attempt kw).
Proof.
  unfold Ui.try_candidate, Spec.passed_over.
  destruct (attempt kw) as [[dat col_names]|e].
  - destruct (Ui.rejected col_names); split; congruence.
  - destruct (Ui.caught e); split; congruence.
Qed.

Lemma guess_loop_None {T} (attempt : gmap string Ui.kwval -> result (T * list string))
  read_kwargs cands :
  Ui.guess_loop attempt read_kwargs cands = None
  <-> Forall (fun c => Spec.passed_over (attempt (Ui.merge_kwargs read_kwargs c))) cands.
Proof.
  induction cands as [|c cands IH]; cbn [Ui.guess_loop].
  - split; [constructor | reflexivity].
  - rewrite Forall_cons, <- IH, <- try_candidate_None.
    destruct (Ui.try_candidate attempt (Ui.merge_kwargs read_kwargs c)); split.
    + discriminate.
    + intros [? _]. discriminate.
    + auto.
    + intros [_ ?]. assumption.
Qed.

Lemma guess_loop_Some {T} (attempt : gmap string Ui.kwval -> result (T * list string))
  read_kwargs cands res :
  Ui.guess_loop attempt read_kwargs cands = Some res ->
  exists c, c ∈ cands /\
            Ui.try_candidate attempt (Ui.merge_kwargs read_kwargs c) = Some res.
Proof.
  induction cands as [|c cands IH]; cbn [Ui.guess_loop]; [discriminate|].
  destruct (Ui.try_candidate attempt (Ui.merge_kwargs read_kwargs c)) as [res'|] eqn:Htry.
  - intros H. injection H as <-. exists c. split; [left | exact Htry].
  - intros H. destruct (IH H) as (c' & Hin & Hc'). exists c'. split; [right|]; assumption.
Qed.

Lemma merge_kwargs_self (kw : gmap string Ui.kwval) : Ui.merge_kwargs kw kw = kw.
Proof. rewrite merge_kwargs_union. apply (idemp_L (∪)). Qed.

Lemma guess_loop_not_caught {T} (attempt : gmap string Ui.kwval -> result (T * list string))
  read_kwargs cands e :
  Ui.guess_loop attempt read_kwargs cands = Some (Raise e) -> Ui.caught e = false.
Proof.
  intros H. apply guess_loop_Some in H as (c & _ & Htry).
  unfold Ui.try_candidate in Htry.
  destruct (attempt (Ui.merge_kwargs read_kwargs c)) as [[dat col_names]|e'].
  - destruct (Ui.rejected col_names); discriminate.
  - destruct (Ui.caught e') eqn:Hc; [discriminate|]. congruence.
Qed.

Lemma attempt_with_own others table :
  Demo.attempt_with others table
    (Ui.merge_kwargs Demo.converters_kwargs Demo.converters_kwargs)
  = Demo.own_read table.
Proof.
  rewrite merge_kwargs_self. unfold Demo.attempt_with.
  rewrite bool_decide_eq_true_2 by reflexivity. reflexivity.
Qed.

(** C3, as the code has it. The exception of an exhausted converter list
    is a [ValueError], which the guesser discards like a structural
    error: the loop goes on with the next candidate, and when every
    candidate is passed over and the last read raises it again, the
    guess ends with the [InconsistentTableError] of the guesser. *)
Theorem guess_discards_conversion_failure {T : Type}
  (attempt : gmap string Ui.kwval -> result (T * list string))
  (read_kwargs c : gmap string Ui.kwval) (rest : list (gmap string Ui.kwval))
  (n : string) (convs : list Core.converter) (vals : list string) (e : exn) :
  Spec.exhausted convs vals ->
  Core.try_converters n convs vals = Raise e ->
  attempt (Ui.merge_kwargs read_kwargs c) = Raise e ->
  Ui.guess_loop attempt read_kwargs (c :: rest)
  = Ui.guess_loop attempt read_kwargs rest /\
  (Ui.guess_loop attempt read_kwargs (Ui.candidates read_kwargs) = None ->
   attempt read_kwargs = Raise e ->
   Ui._guess attempt read_kwargs = Raise (InconsistentTableError UnableToGuess)).
Proof.
  intros Hex Hconv Hattempt.
  rewrite (try_converters_exhausted n convs vals Hex) in Hconv.
  injection Hconv as <-. split.
  - cbn [Ui.guess_loop]. unfold Ui.try_candidate. rewrite Hattempt. reflexivity.
  - intros Hloop Hlast. unfold Ui._guess. rewrite Hloop, Hlast. reflexivity.
Qed.

Lemma guess_discards_conversion_failure_witness :
  Demo.own_read ["a|b"; "x"] = Raise (ValueError "Column a|b failed to convert") /\
  forall (others : gmap string Ui.kwval -> result (Core.Table * list string))
         (later : list (gmap string Ui.kwval)),
    let attempt := Demo.attempt_with others ["a|b"; "x"] in
    Ui.guess_loop attempt Demo.converters_kwargs (Demo.converters_kwargs :: later)
    = Ui.guess_loop attempt Demo.converters_kwargs later /\
    (Ui.guess_loop attempt Demo.converters_kwargs
       (Ui.candidates Demo.converters_kwargs) = None ->
     Ui._guess attempt Demo.converters_kwargs
     = Raise (InconsistentTableError UnableToGuess)).
Proof.
  split; [vm_compute; reflexivity|]. intros others later attempt.
  destruct (guess_discards_conversion_failure attempt
              Demo.converters_kwargs Demo.converters_kwargs later
              "a|b" [Core.conv_int py_int] ["x"]
              (ValueError "Column a|b failed to convert")) as [Hnext Hlast].
  - constructor; [|constructor]. exists "invalid literal". left. reflexivity.
  - reflexivity.
  - unfold attempt. rewrite attempt_with_own. vm_compute. reflexivity.
  - split; [exact Hnext|]. intros Hloop. apply Hlast; [exact Hloop|].
    unfold attempt, Demo.attempt_with.
    rewrite bool_decide_eq_true_2 by reflexivity. vm_compute. reflexivity.
Defined.

(** C3 as stated fails: with [converters = {'a|b': [int list]}] the
    caller's own keywords read the table [a|b], [x|1] as one column that
    does not convert, and the read raises the conversion error. Whatever
    the other candidates give, the guesser goes on to the presets after
    it; the guess ends as the presets decide, or with its own error when
    none of them ends it, and never with the conversion error. *)
Lemma guess_conversion_failure_not_fatal :
  Demo.own_read ["a|b"; "x|1"] = Raise (ValueError "Column a|b failed to convert") /\
  Core.try_converters "a|b" [Core.conv_int py_int] ["x|1"]
  = Raise (ValueError "Column a|b failed to convert") /\
  forall others : gmap string Ui.kwval -> result (Core.Table * list string),
    let attempt := Demo.attempt_with others ["a|b"; "x|1"] in
    Ui.guess_loop attempt Demo.converters_kwargs (Ui.candidates Demo.converters_kwargs)
    = Ui.guess_loop attempt Demo.converters_kwargs Ui._get_guess_kwargs_list /\
    Ui._guess attempt Demo.converters_kwargs
    = default (Raise (InconsistentTableError UnableToGuess))
        (Ui.guess_loop attempt Demo.converters_kwargs Ui._get_guess_kwargs_list) /\
    forall m, Ui._guess attempt Demo.converters_kwargs <> Raise (ValueError m).
Proof.
  assert (Hown : Demo.own_read ["a|b"; "x|1"]
                 = Raise (ValueError "Column a|b failed to convert"))
    by (vm_compute; reflexivity).
  split; [exact Hown|]. split; [vm_compute; reflexivity|].
  intros others attempt.
  assert (Hself : attempt Demo.converters_kwargs
                  = Raise (ValueError "Column a|b failed to convert")).
  { unfold attempt, Demo.attempt_with.
    rewrite bool_decide_eq_true_2 by reflexivity. exact Hown. }
  assert (Hloop : Ui.guess_loop attempt Demo.converters_kwargs
                    (Ui.candidates Demo.converters_kwargs)
                  = Ui.guess_loop attempt Demo.converters_kwargs
                      Ui._get_guess_kwargs_list).
  { unfold Ui.candidates. cbn [app Ui.guess_loop]. unfold Ui.try_candidate.
    rewrite merge_kwargs_self, Hself. reflexivity. }
  assert (Hguess : Ui._guess attempt Demo.converters_kwargs
                   = default (Raise (InconsistentTableError UnableToGuess))
                       (Ui.guess_loop attempt Demo.converters_kwargs
                          Ui._get_guess_kwargs_list)).
  { unfold Ui._guess. rewrite Hloop, Hself.
    destruct (Ui.guess_loop attempt Demo.converters_kwargs Ui._get_guess_kwargs_list);
      reflexivity. }
  split; [exact Hloop|]. split; [exact Hguess|].
  intros m Hm. rewrite Hguess in Hm.
  destruct (Ui.guess_loop attempt Demo.converters_kwargs Ui._get_guess_kwargs_list)
    as [res|] eqn:Hres; cbn in Hm; [|discriminate].
  subst res. apply guess_loop_not_caught in Hres. discriminate.
Qed.

(** ** Fill values (C1) *)

Lemma set_masks_unbound_name d fv c cols :
  Core.fill_values d = Some fv -> Core.str_vals c ≠ [] ->
  Core.set_masks d (c :: cols) = Raise (NameError "fill_values").
Proof.
  intros Hfv Hne. unfold Core.set_masks. rewrite Hfv.
  cbn [map_result]. cbn [Core.set_mask Core.str_vals].
  destruct (Core.str_vals c) as [|v vs]; [contradiction|]. reflexivity.
Qed.

(** C1, on the code. With the fill rule from the empty string to -999,
    [set_masks] on a column whose second value is empty does not return:
    its test reads the name [fill_values], which nothing binds, and
    [NameError] is raised; so is it in a whole read. It is so for
    every rule and every first column that has a value. *)
Theorem fill_values_raise_NameError :
  let fill : gmap string string := {[ EmptyString := "-999" ]} in
  let d := Core.mkData (Core.LInt 1) Core.LNone (Some Core.re_hash)
             Demo.pipe_splitter (Some fill) in
  let r := Core.mkReader
             (Core.reader_header (Core.BasicReader Demo.pipe_splitter Demo.pipe_splitter))
             d Core.BaseOutputter in
  Core.set_masks d [Core.mkColumn "x" 0 ["1"; EmptyString; "3"] None None]
  = Raise (NameError "fill_values") /\
  yielded (Core.get_str_vals d ["1|2"; "|5"]) = [["1"; "2"]; [EmptyString; "5"]] /\
  Core.read r ["x|y"; "1|2"; "|5"] = Raise (NameError "fill_values") /\
  (forall d' fv c cols,
      Core.fill_values d' = Some fv -> Core.str_vals c ≠ [] ->
      Core.set_masks d' (c :: cols) = Raise (NameError "fill_values")).
Proof.
  intros fill d r. split; [vm_compute; reflexivity|].
  split; [vm_compute; reflexivity|]. split; [vm_compute; reflexivity|].
  apply set_masks_unbound_name.
Qed.

(** ** Comment and blank lines (C7) *)

(** The data side: the lines parsed are the lines that are not blank
    and do not match the comment pattern. *)
Lemma data_process_lines_spec comment lines x :
  x ∈ Core.data_process_lines comment lines
  <-> x ∈ lines /\ nonblank x = true /\
      (forall re_comment, comment = Some re_comment -> re_comment x = false).
Proof.
  unfold Core.data_process_lines. destruct comment as [re_comment|].
  - rewrite !list_elem_of_filter, Is_true_true, Is_true_true, negb_true_iff. split.
    + intros (Hc & Hb & Hin). split; [exact Hin|]. split; [exact Hb|].
      intros re' H. injection H as <-. exact Hc.
    + intros (Hin & Hb & Hc). split; [apply Hc; reflexivity|]. split; assumption.
  - rewrite list_elem_of_filter, Is_true_true. split.
    + intros (Hb & Hin). split; [exact Hin|]. split; [exact Hb|]. discriminate.
    + intros (Hin & Hb & _). split; assumption.
Qed.

(** The header side under a comment pattern: every line the pattern
    does not match is yielded, blank or not. *)
Lemma header_process_lines_comment re_comment lines :
  Core.header_process_lines (Some re_comment) lines
  = Gen (filter (fun x => Is_true (negb (re_comment x))) lines) None.
Proof.
  induction lines as [|line lines IH]; [reflexivity|].
  cbn [Core.header_process_lines]. unfold Core.header_keeps.
  rewrite (bool_decide_eq_true_2 (is_Some (Some re_comment))) by eauto.
  rewrite andb_false_r, filter_cons, IH.
  destruct (re_comment line); reflexivity.
Qed.

(** C7, on the code. The header side keeps blank lines: under the
    pattern of the basic reader the empty line that follows the comment
    is yielded and counted as header line 0, while the data side drops
    it, and the read fails on a header of no names. With no pattern an
    empty line ends the header generator with [UnboundLocalError]. Under
    any pattern the header lines are all the lines the pattern does not
    match. *)
Theorem header_counts_blank_lines :
  let lines := ["# fruit"; EmptyString; "a b"; "1 2"] in
  Core.header_process_lines (Some Core.re_hash) lines
  = Gen [EmptyString; "a b"; "1 2"] None /\
  Core.data_process_lines (Some Core.re_hash) lines = ["a b"; "1 2"] /\
  Core.header_line (Core.header_process_lines (Some Core.re_hash) lines) 0
  = Ok EmptyString /\
  Core.read (Core.BasicReader Core.ws_splitter Core.ws_splitter) lines
  = Raise (InconsistentTableError (FirstLine 0 2 [] ["1"; "2"])) /\
  Core.header_process_lines None ["a b"; EmptyString; "1 2"]
  = Gen ["a b"] (Some (UnboundLocalError "re_comment")) /\
  (forall re_comment ls,
      Core.header_process_lines (Some re_comment) ls
      = Gen (filter (fun x => Is_true (negb (re_comment x))) ls) None).
Proof.
  repeat split; try (vm_compute; reflexivity).
  apply header_process_lines_comment.
Qed.

(** ** Data start and end (C8) *)

Lemma get_data_lines_end_function d f lines :
  Core.d_end_line d = Core.LFunc f ->
  is_Some (Core._get_line_index (Core.d_start_line d)
             (Core.data_process_lines (Core.d_comment d) lines)) \/
  is_Some (f (Core.data_process_lines (Core.d_comment d) lines)) ->
  Core.get_data_lines d lines
  = Raise (TypeError "slice indices must be integers or None").
Proof.
  intros Hend Hsome. unfold Core.get_data_lines. rewrite Hend.
  cbn [Core._get_line_index Core.slice_bound].
  destruct Hsome as [H|H].
  - rewrite (bool_decide_eq_true_2 _ H). reflexivity.
  - rewrite (bool_decide_eq_true_2 _ H), orb_true_r. reflexivity.
Qed.

(** C8, on the code. A start locator may be an int or a function, and an
    int end locator slices the lines; but with an end locator that is a
    function (here it computes 2) [get_data_lines] slices with the
    function itself, not with the index it computed, and the list
    refuses the slice with [TypeError], where the lines up to index 2
    were to be had. It is so for every end function, whenever a slice
    is taken. *)
Theorem data_end_function_raises_TypeError :
  let lines := ["a b"; "1 2"; "3 4"; "5 6"] in
  let d_func := Core.mkData (Core.LInt 1) (Core.LFunc (fun _ => Some 2%Z))
                  (Some Core.re_hash) Core.ws_splitter None in
  let d_int := Core.mkData (Core.LFunc (fun _ => Some 1%Z)) (Core.LInt 2)
                 (Some Core.re_hash) Core.ws_splitter None in
  Core._get_line_index (Core.d_end_line d_func) lines = Some 2%Z /\
  Core.get_data_lines d_func lines
  = Raise (TypeError "slice indices must be integers or None") /\
  Core.get_data_lines d_int lines = Ok ["1 2"] /\
  (forall d f ls,
      Core.d_end_line d = Core.LFunc f ->
      is_Some (Core._get_line_index (Core.d_start_line d)
                 (Core.data_process_lines (Core.d_comment d) ls)) \/
      is_Some (f (Core.data_process_lines (Core.d_comment d) ls)) ->
      Core.get_data_lines d ls
      = Raise (TypeError "slice indices must be integers or None")).
Proof.
  intros lines d_func d_int. split; [reflexivity|].
  split; [vm_compute; reflexivity|]. split; [vm_compute; reflexivity|].
  apply get_data_lines_end_function.
Qed.

(* ===================================================================== *)
(** * Further properties of the read pipeline *)
(* ===================================================================== *)

(** ** The columns of a table are the fields of the rows *)

(** The strings of a column are, row by row, the fields at its index. *)
Definition fields_of (rows : list (list string)) (c : Core.Column) : Prop :=
  Forall2 (fun row v => row !! Core.index c = Some v) rows (Core.str_vals c).

Lemma map_result_Forall {A B} (f : A -> result B) (P : A -> Prop) (Q : B -> Prop) l l' :
  (forall x y, f x = Ok y -> P x -> Q y) ->
  map_result f l = Ok l' -> Forall P l -> Forall Q l'.
Proof.
  intros Hf H. apply map_result_Ok in H.
  induction H as [|x y l l' Hxy _ IH]; intros HP; [constructor|].
  apply Forall_cons in HP as [Hx HP]. constructor; eauto.
Qed.

Lemma row_step_fields done i n cols row st' :
  Forall (fields_of done) cols ->
  Core.row_step (i, n, cols) row = Ok st' ->
  Forall (fields_of (done ++ [row])) st'.2.
Proof.
  unfold Core.row_step. case_decide as Hlen; [discriminate|].
  intros Hcols H. apply bind_Ok in H as (cols' & H1 & H2). injection H2 as <-.
  simpl. revert H1 Hcols. apply map_result_Forall.
  intros c c' Hc Hf. destruct (row !! Core.index c) as [v|] eqn:Hv; [|discriminate].
  injection Hc as <-. unfold fields_of. simpl.
  apply Forall2_app; [exact Hf|]. constructor; [exact Hv | constructor].
Qed.

Lemma row_loop_fields rows :
  forall done st cols',
    Forall (fields_of done) st.2 ->
    Core.row_loop st rows = Ok cols' ->
    Forall (fields_of (done ++ rows)) cols'.
Proof.
  induction rows as [|row rows IH]; intros done st cols' Hst H; simpl in H.
  - injection H as <-. rewrite app_nil_r. exact Hst.
  - apply bind_Ok in H as (st' & H1 & H2). destruct st as [[i n] cols].
    apply (row_step_fields done) in H1; [|exact Hst].
    replace (done ++ row :: rows) with ((done ++ [row]) ++ rows)
      by (rewrite <- app_assoc; reflexivity).
    eapply IH; eassumption.
Qed.

Lemma fill_item_raises c ix c' : Core.fill_item c ix = Ok c' -> False.
Proof. unfold Core.fill_item. intros H. vm_compute in H. discriminate. Qed.

Lemma set_masks_fields rows d cols cols' :
  Core.set_masks d cols = Ok cols' ->
  Forall (fields_of rows) cols -> Forall (fields_of rows) cols'.
Proof.
  unfold Core.set_masks. destruct (Core.fill_values d).
  - apply map_result_Forall. intros c c' H Hf.
    destruct (imap pair (Core.str_vals (Core.set_mask c (replicate (length (Core.str_vals c)) false))))
      as [|ix items]; simpl in H.
    + injection H as <-. exact Hf.
    + apply bind_Ok in H as (c1 & H1 & _). destruct (fill_item_raises _ _ _ H1).
  - intros H. injection H as <-. auto.
Qed.

Lemma convert_vals_fields rows o cols cols' :
  Core._convert_vals o cols = Ok cols' ->
  Forall (fields_of rows) cols -> Forall (fields_of rows) cols'.
Proof.
  apply map_result_Forall. intros c c' H Hf. unfold Core.convert_col in H.
  destruct (Core.data c).
  - injection H as <-. exact Hf.
  - apply bind_Ok in H as (dv & _ & H). injection H as <-. exact Hf.
Qed.

Lemma foldl_insert_lookup {V} (pairs : list (string * V)) (m : gmap string V) k v :
  foldl (fun m kv => <[kv.1 := kv.2]> m) m pairs !! k = Some v ->
  (k, v) ∈ pairs \/ m !! k = Some v.
Proof.
  revert m. induction pairs as [|[k' v'] pairs IH]; intros m H; simpl in H.
  - right. exact H.
  - apply IH in H as [H|H]; [left; right; exact H|].
    simpl in H. destruct (decide (k' = k)) as [->|Hne].
    + rewrite lookup_insert_eq in H. injection H as ->. left. left.
    + rewrite lookup_insert_ne in H by exact Hne. right. exact H.
Qed.

Lemma dict_of_columns cols n c :
  Core.dict_of (map (fun x => (Core.name x, x)) cols) !! n = Some c ->
  c ∈ cols /\ Core.name c = n.
Proof.
  unfold Core.dict_of. intros H. apply foldl_insert_lookup in H as [H|H].
  - apply list_elem_of_fmap in H as (x & Hx & Hin). injection Hx as -> ->. auto.
  - rewrite lookup_empty in H. discriminate.
Qed.

(** X1. In every table a read returns, each column is stored under its
    name and its strings are, row by row and in row order, the fields of
    the split data lines at the index of the column; so every column has
    one value per data row. *)
Theorem read_columns_are_fields (r : Core.Reader) (lines data_lines : list string)
  (t : Core.Table) (n : string) (c : Core.Column) :
  Core.get_data_lines (Core.reader_data r) lines = Ok data_lines ->
  Core.read r lines = Ok t ->
  Core.columns t !! n = Some c ->
  Core.name c = n /\
  fields_of (yielded (Core.get_str_vals (Core.reader_data r) data_lines)) c /\
  length (Core.str_vals c)
  = length (yielded (Core.get_str_vals (Core.reader_data r) data_lines)).
Proof.
  intros Hdl Hread Hc. unfold Core.read in Hread. rewrite Hdl in Hread.
  cbn [mbind result_bind bind] in Hread.
  apply bind_Ok in Hread as ([names cols] & Hcols & H).
  apply bind_Ok in H as (cols1 & H1 & H).
  apply bind_Ok in H as (cols2 & H2 & H).
  unfold Core.Outputter_call in H.
  apply bind_Ok in H as (cols3 & H3 & H). injection H as <-. simpl in Hc.
  apply dict_of_columns in Hc as [Hin Hname].
  set (g := Core.get_str_vals (Core.reader_data r) data_lines) in *.
  assert (H0 : Forall (fields_of []) cols).
  { apply get_cols_Ok in Hcols as (_ & _ & _ & ->).
    eapply Forall_impl; [apply (make_cols_gen id)|].
    intros c0 (i & x & -> & _). constructor. }
  unfold Core.read_rows in H1. apply bind_Ok in H1 as (cols1' & H1 & H1').
  destruct (failure g); [discriminate|]. injection H1' as <-.
  apply (row_loop_fields _ []) in H1; [|exact H0]. simpl in H1.
  pose proof (convert_vals_fields _ _ _ _ H3 (set_masks_fields _ _ _ _ H2 H1)) as H4.
  eapply Forall_forall in H4; [|exact Hin].
  split; [exact Hname|]. split; [exact H4|].
  symmetry. eapply Forall2_length, H4.
Qed.

Lemma read_columns_are_fields_witness :
  exists t c,
    Core.read (Core.BasicReader Core.ws_splitter Core.ws_splitter)
      ["a b"; "1 2"; "3 4"; "5 6"] = Ok t /\
    Core.columns t !! "b" = Some c /\
    Core.name c = "b" /\ Core.str_vals c = ["2"; "4"; "6"] /\
    fields_of [["1"; "2"]; ["3"; "4"]; ["5"; "6"]] c.
Proof.
  destruct (Core.read (Core.BasicReader Core.ws_splitter Core.ws_splitter)
              ["a b"; "1 2"; "3 4"; "5 6"]) as [t|e] eqn:Hread;
    [|vm_compute in Hread; discriminate].
  destruct (Core.columns t !! "b") as [c|] eqn:Hc;
    [|vm_compute in Hread; injection Hread as <-; vm_compute in Hc; discriminate].
  exists t, c. split; [reflexivity|]. split; [exact Hc|].
  destruct (read_columns_are_fields
              (Core.BasicReader Core.ws_splitter Core.ws_splitter)
              ["a b"; "1 2"; "3 4"; "5 6"] ["1 2"; "3 4"; "5 6"] t "b" c)
    as (Hname & Hfields & _); [reflexivity | exact Hread | exact Hc |].
  split; [exact Hname|]. split; [|exact Hfields].
  vm_compute in Hread. injection Hread as <-. vm_compute in Hc. injection Hc as <-.
  reflexivity.
Defined.

(** ** A table without data rows *)

(** X2. On a table that is a list of strings: when the data lines are
    located but the splitter yields no row (and does not fail), as for a
    table of a header line alone, [read] raises [StopIteration], the
    exception of the [.next()] that asks for the first row; on the empty
    list it raises [IndexError], in the inputter, before any line is
    looked at. It raises no table error and returns no empty table. *)
Theorem read_without_rows_StopIteration (r : Core.Reader)
  (table data_lines : list string) :
  Core.get_data_lines (Core.reader_data r) table = Ok data_lines ->
  yielded (Core.get_str_vals (Core.reader_data r) data_lines) = [] ->
  failure (Core.get_str_vals (Core.reader_data r) data_lines) = None ->
  Core.read_table r table
  = Raise (match table with [] => IndexError | _ :: _ => StopIteration end).
Proof.
  intros Hdl Hy Hf. unfold Core.read_table, Core.get_lines.
  destruct table as [|x table]; [reflexivity|].
  cbn [mbind result_bind bind]. unfold Core.BaseInputter_process_lines, Core.read.
  rewrite Hdl. cbn [mbind result_bind bind].
  unfold Core.get_cols, gen_next. rewrite Hy, Hf. reflexivity.
Qed.

Lemma read_without_rows_StopIteration_witness :
  Core.read_table (Core.BasicReader Core.ws_splitter Core.ws_splitter)
    ["# only a header"; "a b c"; "   "]
  = Raise StopIteration /\
  Core.read_table (Core.BasicReader Core.ws_splitter Core.ws_splitter) []
  = Raise IndexError.
Proof.
  split.
  - apply (read_without_rows_StopIteration _ ["# only a header"; "a b c"; "   "] []);
      reflexivity.
  - apply (read_without_rows_StopIteration _ [] []); reflexivity.
Defined.

(** ** Names without a header line *)

#[local] Instance auto_format_inj : Inj (=) (=) Core.auto_format.
Proof.
  intros i j H. unfold Core.auto_format in H.
  apply (inj pretty). cbn [String.append] in H. injection H as H. exact H.
Qed.




(** ** The data lines *)

(** X4. The lines [get_data_lines] keeps are lines of the input, in
    their order, none blank and none matching the comment pattern,
    whatever the start and end of the slice. *)
Theorem data_lines_are_data (d : Core.Data) (lines data_lines : list string) :
  Core.get_data_lines d lines = Ok data_lines ->
  data_lines `sublist_of` lines /\
  (forall x, x ∈ data_lines ->
     nonblank x = true /\
     (forall re_comment, Core.d_comment d = Some re_comment -> re_comment x = false)).
Proof.
  intros H.
  assert (Hsub : data_lines `sublist_of` Core.data_process_lines (Core.d_comment d) lines).
  { unfold Core.get_data_lines in H.
    destruct (bool_decide _ || bool_decide _).
    - apply bind_Ok in H as (stop & _ & H). injection H as <-.
      unfold py_slice. etrans; [apply sublist_take | apply sublist_drop].
    - injection H as <-. reflexivity. }
  split.
  - etrans; [exact Hsub|]. unfold Core.data_process_lines.
    destruct (Core.d_comment d).
    + etrans; apply sublist_filter.
    + apply sublist_filter.
  - intros x Hx. apply (sublist_subseteq _ _ Hsub) in Hx.
    apply data_process_lines_spec in Hx as (_ & Hb & Hc). split; assumption.
Qed.

Lemma data_lines_are_data_witness :
  ["1 2"; "3 4"] `sublist_of` ["# c"; "a b"; ""; "1 2"; "  # d"; "3 4"; "5 6"] /\
  (forall x, x ∈ ["1 2"; "3 4"] -> nonblank x = true /\
     (forall re_comment, Some Core.re_hash = Some re_comment -> re_comment x = false)).
Proof.
  apply (data_lines_are_data
           (Core.mkData (Core.LInt 1) (Core.LInt (-1)) (Some Core.re_hash)
                        Core.ws_splitter None)).
  reflexivity.
Defined.

(** ** Converters in order *)

(** X5. For a column with its own converter list, the converters are
    tried in order and the first that does not raise gives the data:
    those before it that raise [ValueError] or [TypeError] are passed
    over, those after it are not called. *)
Theorem first_converter_wins (o : Core.Outputter) (col : Core.Column)
  (failed rest : list Core.converter) (conv : Core.converter) (d : Core.col_data) :
  Core.converters o !! Core.name col = Some (Core.ConvList (failed ++ conv :: rest)) ->
  Core.data col = None ->
  Spec.exhausted failed (Core.str_vals col) ->
  conv (Core.str_vals col) = Ok d ->
  Core.convert_col o col = Ok (Core.set_data col d).
Proof.
  intros Hconv Hdata Hfailed Hok. unfold Core.convert_col. rewrite Hconv, Hdata.
  assert (Htry : Core.try_converters (Core.name col) (failed ++ conv :: rest)
                   (Core.str_vals col) = Ok d).
  { clear Hconv. induction Hfailed as [|c failed (m & [Hc|Hc]) _ IH];
      cbn [app Core.try_converters].
    - rewrite Hok. reflexivity.
    - rewrite Hc. exact IH.
    - rewrite Hc. exact IH. }
  rewrite Htry. reflexivity.
Qed.

Lemma first_converter_wins_witness :
  let o := Core.mkOutputter
             {[ "x" := Core.ConvList [Core.conv_int py_int; Core.conv_float py_float;
                                      Core.conv_id] ]} [] in
  Core.convert_col o (Core.mkColumn "x" 0 ["1"; "2.5"] None None)
  = Ok (Core.mkColumn "x" 0 ["1"; "2.5"] None
          (Some (Core.FloatData [FloatLit "1"; FloatLit "2.5"]))).
Proof.
  intros o.
  apply (first_converter_wins o (Core.mkColumn "x" 0 ["1"; "2.5"] None None)
           [Core.conv_int py_int] [Core.conv_id] (Core.conv_float py_float)
           (Core.FloatData [FloatLit "1"; FloatLit "2.5"])).
  - reflexivity.
  - reflexivity.
  - constructor; [|constructor]. exists "invalid literal". left. reflexivity.
  - reflexivity.
Defined.

(** ** A header line that is not there *)



(** ** A read that returns *)

Lemma read_rows_ok cols (g : gen (list string)) n :
  Forall (fun row => length row = n) (yielded g) ->
  failure g = None ->
  Forall (fun c => Core.index c < n) cols ->
  exists cols', Core.read_rows cols g = Ok cols' /\ Forall2 same_col cols cols'.
Proof.
  intros Hrows Hfail Hidx.
  assert (Hloop : exists cols', Core.row_loop (0, 0, cols) (yielded g) = Ok cols' /\
                                Forall2 same_col cols cols').
  { destruct (yielded g) as [|r0 rest] eqn:Hy.
    - exists cols. split; [reflexivity | apply same_cols_refl].
    - apply Forall_cons in Hrows as [Hr0 Hrest].
      destruct (row_step_ok 0 0 cols r0) as (cols1 & Hstep & Hsame1);
        [intros []; reflexivity | rewrite Hr0; exact Hidx |].
      destruct (row_loop_ok n rest 1 cols1) as (cols' & Hl & Hsame');
        [lia | exact Hrest | eapply same_cols_index_lt; eassumption |].
      exists cols'. split; [|eapply same_cols_trans; eassumption].
      cbn [Core.row_loop]. rewrite Hstep. cbn [mbind result_bind bind].
      rewrite Hr0. exact Hl. }
  destruct Hloop as (cols' & Hloop & Hsame). exists cols'. split; [|exact Hsame].
  unfold Core.read_rows. rewrite Hloop. cbn [mbind result_bind bind].
  rewrite Hfail. reflexivity.
Qed.



(* ===================================================================== *)
(** * Properties of the custom extensions *)
(* ===================================================================== *)

(** ** Continuation lines *)

Lemma join_continued_all_marked cc parts lines :
  Forall (fun x => Formats.endswith cc x = true) lines ->
  Formats.join_continued cc parts lines = [].
Proof.
  intros H. revert parts. induction H as [|x lines Hx _ IH]; intros parts; simpl.
  - reflexivity.
  - rewrite Hx. apply IH.
Qed.

Lemma join_continued_app_marked cc l1 l2 :
  Forall (fun x => Formats.endswith cc x = true) l2 ->
  forall parts, Formats.join_continued cc parts (l1 ++ l2)
                = Formats.join_continued cc parts l1.
Proof.
  intros H. induction l1 as [|x l1 IH]; intros parts; simpl.
  - apply join_continued_all_marked, H.
  - destruct (Formats.endswith cc x); [apply IH | f_equal; apply IH].
Qed.

(** X8. Lines at the end of the input that all end with the
    continuation mark (once stripped and the blank ones dropped) are
    lost: they wait for a closing line that never comes, and the result
    is that of the input without them. *)
Theorem continuation_tail_dropped (cc : string) (lines tail : list string) :
  Forall (fun x => Formats.endswith cc x = true)
    (filter (fun x => Is_true (nonempty x)) (map strip tail)) ->
  Formats.continuation_process_lines cc (lines ++ tail)
  = Formats.continuation_process_lines cc lines.
Proof.
  intros H. unfold Formats.continuation_process_lines.
  rewrite map_app, filter_app. apply join_continued_app_marked, H.
Qed.

Lemma continuation_tail_dropped_witness :
  Formats.continuation_process_lines Formats.continuation_char
    (["a \"; "b"; "c"] ++ ["d \"; "   "; "e \"])
  = ["a b"; "c"].
Proof.
  rewrite (continuation_tail_dropped Formats.continuation_char
             ["a \"; "b"; "c"] ["d \"; "   "; "e \"]).
  - reflexivity.
  - repeat (constructor; [reflexivity|]). constructor.
Defined.

Lemma join_continued_length cc parts lines :
  length (Formats.join_continued cc parts lines)
  = length (filter (fun x => Is_true (negb (Formats.endswith cc x))) lines).
Proof.
  revert parts. induction lines as [|x lines IH]; intros parts; simpl; [reflexivity|].
  rewrite filter_cons. destruct (Formats.endswith cc x); simpl.
  - apply IH.
  - f_equal. apply IH.
Qed.

Lemma concat_single (s : string) : String.concat EmptyString [s] = s.
Proof. reflexivity. Qed.

Lemma join_continued_unmarked cc lines :
  Forall (fun x => Formats.endswith cc x = false) lines ->
  Formats.join_continued cc [] lines = lines.
Proof.
  induction 1 as [|x lines Hx _ IH]; simpl; [reflexivity|].
  rewrite Hx. f_equal. exact IH.
Qed.

(** X9. The continuation inputter gives one logical line for each
    non-blank stripped line that does not end with the mark; when no
    stripped line ends with the mark it gives exactly the stripped
    non-blank lines. *)
Theorem continuation_one_line_per_unmarked (cc : string) (lines : list string) :
  length (Formats.continuation_process_lines cc lines)
  = length (filter (fun x => Is_true (negb (Formats.endswith cc x)))
              (filter (fun x => Is_true (nonempty x)) (map strip lines))) /\
  (Forall (fun x => Formats.endswith cc (strip x) = false) lines ->
   Formats.continuation_process_lines cc lines
   = filter (fun x => Is_true (nonempty x)) (map strip lines)).
Proof.
  unfold Formats.continuation_process_lines. split.
  - apply join_continued_length.
  - intros H. apply join_continued_unmarked.
    apply Forall_forall. intros x Hx. apply list_elem_of_filter in Hx as [_ Hx].
    apply list_elem_of_fmap in Hx as (y & -> & Hy).
    eapply Forall_forall in H; [exact H | exact Hy].
Qed.

(** ** The data lines of a CDS table *)

Lemma sections_none (g : nat -> nat) lines :
  Forall (fun x => Formats.is_section x = false) lines ->
  omap (fun ix : nat * string => if Formats.is_section ix.2 then Some ix.1 else None)
       (imap (fun i => pair (g i)) lines) = [].
Proof.
  intros H. revert g. induction H as [|x lines Hx _ IH]; intros g; simpl.
  - reflexivity.
  - rewrite Hx. apply (IH (g ∘ S)).
Qed.

Lemma sections_last (g : nat -> nat) pre d rest :
  Formats.is_section d = true ->
  Forall (fun x => Formats.is_section x = false) rest ->
  last (omap (fun ix : nat * string => if Formats.is_section ix.2 then Some ix.1 else None)
             (imap (fun i => pair (g i)) (pre ++ d :: rest)))
  = Some (g (length pre)).
Proof.
  intros Hd Hrest. revert g. induction pre as [|x pre IH]; intros g; simpl.
  - rewrite Hd.
    change (last (g 0 :: omap (fun ix : nat * string =>
                                 if Formats.is_section ix.2 then Some ix.1 else None)
                          (imap (fun i => pair ((g ∘ S) i)) rest)) = Some (g 0)).
    rewrite (sections_none (g ∘ S) rest Hrest). reflexivity.
  - specialize (IH (g ∘ S)). simpl in IH.
    destruct (Formats.is_section x); [|exact IH].
    match type of IH with
    | last ?L = _ => change (last (g 0 :: L) = Some (g (S (length pre))))
    end.
    rewrite last_cons, IH. reflexivity.
Qed.

Lemma last_section_split lines :
  Forall (fun x => Formats.is_section x = false) lines \/
  exists pre d rest, lines = pre ++ d :: rest /\ Formats.is_section d = true /\
                     Forall (fun x => Formats.is_section x = false) rest.
Proof.
  induction lines as [|x lines [IH|(pre & d & rest & -> & Hd & Hrest)]].
  - left. constructor.
  - destruct (Formats.is_section x) eqn:Hx.
    + right. exists [], x, lines. auto.
    + left. constructor; assumption.
  - right. exists (x :: pre), d, rest. auto.
Qed.

(** X10. [CdsData.process_lines] returns exactly the lines after the
    last section line (a line that starts with six dashes or seven equal
    signs), none of which is a section line; on an input with no section
    line it raises [IndexError]. *)
Theorem cds_lines_after_last_section (lines : list string) :
  match Formats.cds_process_lines lines with
  | Ok rest =>
      exists pre d, lines = pre ++ d :: rest /\ Formats.is_section d = true /\
                    Forall (fun x => Formats.is_section x = false) rest
  | Raise e =>
      e = IndexError /\ Forall (fun x => Formats.is_section x = false) lines
  end.
Proof.
  unfold Formats.cds_process_lines.
  destruct (last_section_split lines) as [Hnone|(pre & d & rest & -> & Hd & Hrest)].
  - change (imap pair lines) with (imap (fun i => pair (id i)) lines).
    rewrite (sections_none id lines Hnone). simpl. auto.
  - change (imap pair (pre ++ d :: rest))
      with (imap (fun i => pair (id i)) (pre ++ d :: rest)).
    rewrite (sections_last id pre d rest Hd Hrest). unfold id.
    replace (drop (length pre + 1) (pre ++ d :: rest)) with rest.
    + exists pre, d. auto.
    + rewrite drop_app_add'; [reflexivity | reflexivity].
Qed.

(** ** Fixed-width rows *)

(** X11. A fixed-width splitter never fails and yields one row per
    line with exactly one field per column, however short the line; so
    the row loop of [read] over its rows returns for any columns whose
    indices are below the number of slices, and neither the row-length
    error nor [IndexError] can arise. *)
Theorem fixed_width_rows_are_regular (extents : list Formats.Extent)
  (process_val : option (string -> string)) (lines : list string)
  (cols : list Core.Column) :
  Forall (fun c => Core.index c < length extents) cols ->
  let g := Formats.FixedWidthSplitter_call extents process_val lines in
  failure g = None /\
  length (yielded g) = length lines /\
  Forall (fun row => length row = length extents) (yielded g) /\
  exists cols', Core.read_rows cols g = Ok cols' /\
                map Core.name cols' = map Core.name cols.
Proof.
  intros Hidx g.
  assert (Hrows : Forall (fun row => length row = length extents) (yielded g)).
  { unfold g, Formats.FixedWidthSplitter_call. cbn [yielded].
    apply Forall_forall. intros row Hrow.
    apply list_elem_of_fmap in Hrow as (line & -> & _).
    destruct process_val; rewrite ?length_map; reflexivity. }
  split; [reflexivity|]. split; [apply length_map|]. split; [exact Hrows|].
  destruct (read_rows_ok cols g (length extents) Hrows eq_refl Hidx) as (cols' & H & Hsame).
  exists cols'. split; [exact H | apply (same_cols_names _ _ Hsame)].
Qed.

Lemma fixed_width_rows_are_regular_witness :
  let g := Formats.FixedWidthSplitter_call
             [Formats.mkExtent 0 3; Formats.mkExtent 4 9] (Some strip)
             ["ab  cdefg"; "x"; ""] in
  failure g = None /\
  length (yielded g) = 3 /\
  Forall (fun row => length row = 2) (yielded g) /\
  exists cols', Core.read_rows [Core.Column_init "a" 0; Core.Column_init "b" 1] g = Ok cols' /\
                map Core.name cols' = ["a"; "b"].
Proof.
  apply (fixed_width_rows_are_regular
           [Formats.mkExtent 0 3; Formats.mkExtent 4 9] (Some strip)
           ["ab  cdefg"; "x"; ""] [Core.Column_init "a" 0; Core.Column_init "b" 1]).
  repeat (constructor; [simpl; lia|]). constructor.
Defined.

(** ** The names of a DAOphot header *)

Lemma daophot_names_stop pre line post :
  Formats.startswith "#" line = false ->
  Formats.daophot_names (pre ++ line :: post) = Formats.daophot_names pre.
Proof.
  intros Hl. induction pre as [|x pre IH]; simpl.
  - rewrite Hl. reflexivity.
  - destruct (Formats.startswith "#" x); simpl; [|reflexivity].
    destruct (Formats.search_name_def (chars x)); [f_equal|]; exact IH.
Qed.

(** X12. The DAOphot header reads its names from the lines before the
    first line that does not start with a hash: that line and all the
    lines after it (name definitions among them) change neither the
    names nor the result of [get_cols]. *)
Theorem daophot_header_ends_at_first_data_line (h : Core.Header)
  (first_row : result (list string)) (pre post : list string) (line : string) :
  Formats.startswith "#" line = false ->
  Formats.daophot_names (pre ++ line :: post) = Formats.daophot_names pre /\
  Formats.daophot_get_cols h first_row (pre ++ line :: post)
  = Formats.daophot_get_cols h first_row pre.
Proof.
  intros Hl. split; [apply daophot_names_stop, Hl|].
  unfold Formats.daophot_get_cols. rewrite (daophot_names_stop pre line post Hl).
  reflexivity.
Qed.

Lemma daophot_header_ends_at_first_data_line_witness :
  Formats.daophot_names (["#K a = 1 #"; "#N ID XC #"; "#N MAG #"] ++ "1 2 3" :: ["#N LATE #"])
  = ["ID"; "XC"; "MAG"] /\
  Formats.daophot_get_cols (Core.mkHeader Core.LNone None Core.ws_splitter None None None)
    (Ok ["1"; "2"; "3"]) (["#K a = 1 #"; "#N ID XC #"; "#N MAG #"] ++ "1 2 3" :: ["#N LATE #"])
  = Formats.daophot_get_cols (Core.mkHeader Core.LNone None Core.ws_splitter None None None)
      (Ok ["1"; "2"; "3"]) ["#K a = 1 #"; "#N ID XC #"; "#N MAG #"].
Proof.
  destruct (daophot_header_ends_at_first_data_line
              (Core.mkHeader Core.LNone None Core.ws_splitter None None None)
              (Ok ["1"; "2"; "3"]) ["#K a = 1 #"; "#N ID XC #"; "#N MAG #"] ["#N LATE #"]
              "1 2 3") as [Hnames Hcols]; [reflexivity|].
  split; [rewrite Hnames; reflexivity | exact Hcols].
Defined.

(* ===================================================================== *)
(** * Properties of [get_reader] *)
(* ===================================================================== *)

Lemma on_val_proj {X} (proj : Config.ReaderObj -> X) kwargs key f r r' :
  (forall v r0, proj (f v r0) = proj r0) ->
  Config.on_val kwargs key f r = Ok r' -> proj r' = proj r.
Proof.
  intros Hf. unfold Config.on_val.
  destruct (kwargs !! key) as [[v|cls]|]; intros H; injection H as <-; auto.
Qed.

Lemma on_val_set {X} (proj : Config.ReaderObj -> X) kwargs key f r r' v :
  kwargs !! key = Some (Config.Val v) ->
  (forall r0, proj (f v r0) = proj (f v r)) ->
  Config.on_val kwargs key f r = Ok r' -> proj r' = proj (f v r).
Proof.
  intros Hk Hf. unfold Config.on_val. rewrite Hk. intros H. injection H as <-.
  reflexivity.
Qed.

Lemma on_class_proj {X} (proj : Config.ReaderObj -> X) kwargs key f r r' :
  (forall s r0, proj (f s r0) = proj r0) ->
  Config.on_class kwargs key f r = Ok r' -> proj r' = proj r.
Proof.
  intros Hf. unfold Config.on_class.
  destruct (kwargs !! key) as [[v|cls]|]; intros H; [discriminate| |];
    injection H as <-; auto.
Qed.

Lemma on_class_absent kwargs key f r r' :
  (forall cls, kwargs !! key ≠ Some (Config.SplitterClass cls)) ->
  Config.on_class kwargs key f r = Ok r' -> r' = r.
Proof.
  intros Hk. unfold Config.on_class.
  destruct (kwargs !! key) as [[v|cls]|]; intros H; [discriminate| |].
  - destruct (Hk cls eq_refl).
  - injection H as <-. reflexivity.
Qed.

(** The fourteen steps of a [get_reader] that returns. *)
Ltac get_reader_steps H :=
  unfold Config.get_reader in H;
  destruct (Config.bad_args _) as [|? ?] eqn:Hbad; [|discriminate H];
  apply bind_Ok in H as (r1 & Hdelim & H);
  apply bind_Ok in H as (r2 & Hcomment & H);
  apply bind_Ok in H as (r3 & Hquote & H);
  apply bind_Ok in H as (r4 & Hdstart & H);
  apply bind_Ok in H as (r5 & Hdend & H);
  apply bind_Ok in H as (r6 & Hhstart & H);
  apply bind_Ok in H as (r7 & Hconv & H);
  apply bind_Ok in H as (r8 & Hdsplit & H);
  apply bind_Ok in H as (r9 & Hhsplit & H);
  apply bind_Ok in H as (r10 & Hdmask & H);
  apply bind_Ok in H as (r11 & Hamask & H);
  apply bind_Ok in H as (r12 & Hnames & H);
  apply bind_Ok in H as (r13 & Hincl & H);
  apply bind_Ok in H as (r14 & Hexcl & H);
  injection H as <-.

(** What one step leaves as it is. *)
Ltac kept proj H :=
  first [ apply (on_val_proj proj) in H; [|intros; reflexivity]
        | apply (on_class_proj proj) in H; [|intros; reflexivity] ].

(** X13. In the reader [get_reader] returns, a splitter replaced through
    [data_Splitter] (or [header_Splitter]) is a fresh instance of that
    class with the class defaults: the [delimiter] and [quotechar]
    keywords of the same call, set before it, are lost on it. Without
    the replacement the data (header) splitter carries the [delimiter]
    and the [quotechar] of the call. *)
Theorem get_reader_splitters (has_numpy : bool)
  (Reader : option Config.reader_class) (Inputter : option Config.inputter_class)
  (Outputter : option Config.outputter_class) (numpy : bool)
  (kwargs : gmap string Config.arg) (r : Config.ReaderObj) :
  Config.get_reader has_numpy Reader Inputter Outputter numpy kwargs = Ok r ->
  (forall cls, kwargs !! "data_Splitter" = Some (Config.SplitterClass cls) ->
     Config.d_splitter (Config.data r) = Config.new_splitter cls) /\
  (forall cls, kwargs !! "header_Splitter" = Some (Config.SplitterClass cls) ->
     Config.h_splitter (Config.header r) = Config.new_splitter cls) /\
  (kwargs !! "data_Splitter" = None ->
     (forall v, kwargs !! "delimiter" = Some (Config.Val v) ->
        Config.sp_delimiter (Config.d_splitter (Config.data r)) = v) /\
     (forall v, kwargs !! "quotechar" = Some (Config.Val v) ->
        Config.sp_quotechar (Config.d_splitter (Config.data r)) = v)) /\
  (kwargs !! "header_Splitter" = None ->
     (forall v, kwargs !! "delimiter" = Some (Config.Val v) ->
        Config.sp_delimiter (Config.h_splitter (Config.header r)) = v) /\
     (forall v, kwargs !! "quotechar" = Some (Config.Val v) ->
        Config.sp_quotechar (Config.h_splitter (Config.header r)) = v)).
Proof.
  intros H. get_reader_steps H.
  split; [|split; [|split]].
  - intros cls Hk.
    kept (fun r => Config.d_splitter (Config.data r)) Hexcl.
    kept (fun r => Config.d_splitter (Config.data r)) Hincl.
    kept (fun r => Config.d_splitter (Config.data r)) Hnames.
    kept (fun r => Config.d_splitter (Config.data r)) Hamask.
    kept (fun r => Config.d_splitter (Config.data r)) Hdmask.
    kept (fun r => Config.d_splitter (Config.data r)) Hhsplit.
    unfold Config.on_class in Hdsplit. rewrite Hk in Hdsplit. injection Hdsplit as <-.
    cbn in *. congruence.
  - intros cls Hk.
    kept (fun r => Config.h_splitter (Config.header r)) Hexcl.
    kept (fun r => Config.h_splitter (Config.header r)) Hincl.
    kept (fun r => Config.h_splitter (Config.header r)) Hnames.
    kept (fun r => Config.h_splitter (Config.header r)) Hamask.
    kept (fun r => Config.h_splitter (Config.header r)) Hdmask.
    unfold Config.on_class in Hhsplit. rewrite Hk in Hhsplit. injection Hhsplit as <-.
    cbn in *. congruence.
  - intros Hnone.
    apply on_class_absent in Hdsplit; [|intros cls; rewrite Hnone; discriminate].
    split.
    + intros v Hk.
      kept (fun r => Config.sp_delimiter (Config.d_splitter (Config.data r))) Hexcl.
      kept (fun r => Config.sp_delimiter (Config.d_splitter (Config.data r))) Hincl.
      kept (fun r => Config.sp_delimiter (Config.d_splitter (Config.data r))) Hnames.
      kept (fun r => Config.sp_delimiter (Config.d_splitter (Config.data r))) Hamask.
      kept (fun r => Config.sp_delimiter (Config.d_splitter (Config.data r))) Hdmask.
      kept (fun r => Config.sp_delimiter (Config.d_splitter (Config.data r))) Hhsplit.
      kept (fun r => Config.sp_delimiter (Config.d_splitter (Config.data r))) Hconv.
      kept (fun r => Config.sp_delimiter (Config.d_splitter (Config.data r))) Hhstart.
      kept (fun r => Config.sp_delimiter (Config.d_splitter (Config.data r))) Hdend.
      kept (fun r => Config.sp_delimiter (Config.d_splitter (Config.data r))) Hdstart.
      kept (fun r => Config.sp_delimiter (Config.d_splitter (Config.data r))) Hquote.
      kept (fun r => Config.sp_delimiter (Config.d_splitter (Config.data r))) Hcomment.
      unfold Config.on_val in Hdelim. rewrite Hk in Hdelim. injection Hdelim as <-.
      subst r8. cbn in *. congruence.
    + intros v Hk.
      kept (fun r => Config.sp_quotechar (Config.d_splitter (Config.data r))) Hexcl.
      kept (fun r => Config.sp_quotechar (Config.d_splitter (Config.data r))) Hincl.
      kept (fun r => Config.sp_quotechar (Config.d_splitter (Config.data r))) Hnames.
      kept (fun r => Config.sp_quotechar (Config.d_splitter (Config.data r))) Hamask.
      kept (fun r => Config.sp_quotechar (Config.d_splitter (Config.data r))) Hdmask.
      kept (fun r => Config.sp_quotechar (Config.d_splitter (Config.data r))) Hhsplit.
      kept (fun r => Config.sp_quotechar (Config.d_splitter (Config.data r))) Hconv.
      kept (fun r => Config.sp_quotechar (Config.d_splitter (Config.data r))) Hhstart.
      kept (fun r => Config.sp_quotechar (Config.d_splitter (Config.data r))) Hdend.
      kept (fun r => Config.sp_quotechar (Config.d_splitter (Config.data r))) Hdstart.
      unfold Config.on_val in Hquote. rewrite Hk in Hquote. injection Hquote as <-.
      subst r8. cbn in *. congruence.
  - intros Hnone.
    apply on_class_absent in Hhsplit; [|intros cls; rewrite Hnone; discriminate].
    split.
    + intros v Hk.
      kept (fun r => Config.sp_delimiter (Config.h_splitter (Config.header r))) Hexcl.
      kept (fun r => Config.sp_delimiter (Config.h_splitter (Config.header r))) Hincl.
      kept (fun r => Config.sp_delimiter (Config.h_splitter (Config.header r))) Hnames.
      kept (fun r => Config.sp_delimiter (Config.h_splitter (Config.header r))) Hamask.
      kept (fun r => Config.sp_delimiter (Config.h_splitter (Config.header r))) Hdmask.
      kept (fun r => Config.sp_delimiter (Config.h_splitter (Config.header r))) Hdsplit.
      kept (fun r => Config.sp_delimiter (Config.h_splitter (Config.header r))) Hconv.
      kept (fun r => Config.sp_delimiter (Config.h_splitter (Config.header r))) Hhstart.
      kept (fun r => Config.sp_delimiter (Config.h_splitter (Config.header r))) Hdend.
      kept (fun r => Config.sp_delimiter (Config.h_splitter (Config.header r))) Hdstart.
      kept (fun r => Config.sp_delimiter (Config.h_splitter (Config.header r))) Hquote.
      kept (fun r => Config.sp_delimiter (Config.h_splitter (Config.header r))) Hcomment.
      unfold Config.on_val in Hdelim. rewrite Hk in Hdelim. injection Hdelim as <-.
      subst r9. cbn in *. congruence.
    + intros v Hk.
      kept (fun r => Config.sp_quotechar (Config.h_splitter (Config.header r))) Hexcl.
      kept (fun r => Config.sp_quotechar (Config.h_splitter (Config.header r))) Hincl.
      kept (fun r => Config.sp_quotechar (Config.h_splitter (Config.header r))) Hnames.
      kept (fun r => Config.sp_quotechar (Config.h_splitter (Config.header r))) Hamask.
      kept (fun r => Config.sp_quotechar (Config.h_splitter (Config.header r))) Hdmask.
      kept (fun r => Config.sp_quotechar (Config.h_splitter (Config.header r))) Hdsplit.
      kept (fun r => Config.sp_quotechar (Config.h_splitter (Config.header r))) Hconv.
      kept (fun r => Config.sp_quotechar (Config.h_splitter (Config.header r))) Hhstart.
      kept (fun r => Config.sp_quotechar (Config.h_splitter (Config.header r))) Hdend.
      kept (fun r => Config.sp_quotechar (Config.h_splitter (Config.header r))) Hdstart.
      unfold Config.on_val in Hquote. rewrite Hk in Hquote. injection Hquote as <-.
      subst r9. cbn in *. congruence.
Qed.

Lemma get_reader_splitters_witness :
  exists r,
    Config.get_reader true None None None false
      {[ "delimiter" := Config.Val (Config.PStr ",");
         "quotechar" := Config.Val (Config.PStr "'");
         "data_Splitter" := Config.SplitterClass Config.BaseSplitter ]} = Ok r /\
    Config.sp_delimiter (Config.d_splitter (Config.data r)) = Config.PNone /\
    Config.sp_delimiter (Config.h_splitter (Config.header r)) = Config.PStr "," /\
    Config.sp_quotechar (Config.h_splitter (Config.header r)) = Config.PStr "'".
Proof.
  destruct (Config.get_reader true None None None false
              {[ "delimiter" := Config.Val (Config.PStr ",");
                 "quotechar" := Config.Val (Config.PStr "'");
                 "data_Splitter" := Config.SplitterClass Config.BaseSplitter ]})
    as [r|e] eqn:Hget; [|vm_compute in Hget; discriminate].
  exists r. split; [reflexivity|].
  destruct (get_reader_splitters _ _ _ _ _ _ _ Hget) as (Hd & _ & _ & Hh).
  rewrite (Hd Config.BaseSplitter) by (vm_compute; reflexivity).
  destruct Hh as [Hdel Hq]; [vm_compute; reflexivity|].
  split; [reflexivity|].
  split; [apply Hdel | apply Hq]; vm_compute; reflexivity.
Defined.

Lemma filter_nil_Forall {A} (P : A -> Prop) `{forall x, Decision (P x)} (l : list A) :
  filter P l = [] <-> Forall (fun x => ~ P x) l.
Proof.
  induction l as [|x l IH]; [split; [constructor | reflexivity]|].
  rewrite filter_cons. destruct (decide (P x)) as [Hp|Hp].
  - split; [discriminate|]. intros HF. apply Forall_cons in HF as [Hx _]. contradiction.
  - rewrite IH. split; [intros HF; constructor; assumption|].
    intros HF. apply Forall_cons in HF as [_ HF]. exact HF.
Qed.

Lemma reader_bad_args_nil (kwargs : gmap string Config.arg) :
  Config.bad_args kwargs = []
  <-> forall k, is_Some (kwargs !! k) -> k ∈ Config.extra_reader_pars.
Proof.
  unfold Config.bad_args. rewrite filter_nil_Forall, Forall_forall. split.
  - intros H k [v Hk]. destruct (decide (k ∈ Config.extra_reader_pars)) as [|Hn]; [assumption|].
    exfalso. apply (H k); [|exact Hn].
    apply list_elem_of_fmap. exists (k, v). split; [reflexivity|].
    apply elem_of_map_to_list, Hk.
  - intros H k Hin Hn. apply Hn, H.
    apply list_elem_of_fmap in Hin as ([k' v] & -> & Hin).
    apply elem_of_map_to_list in Hin. eauto.
Qed.

Lemma on_val_total kwargs key f r : exists r', Config.on_val kwargs key f r = Ok r'.
Proof. unfold Config.on_val. destruct (kwargs !! key) as [[v|cls]|]; eauto. Qed.

Ltac on_val_step :=
  match goal with
  | |- context [Config.on_val ?k ?key ?f ?r] =>
      let r' := fresh "r" in
      destruct (on_val_total k key f r) as [r' ->]; cbn [mbind result_bind bind]
  end.

(** X14. [get_reader] returns a reader exactly when every keyword is one
    of the recognized parameters and [data_Splitter] and
    [header_Splitter], when given, are classes. A keyword outside the
    list raises [ValueError]; with none such, a splitter keyword that is
    not callable raises [TypeError]. *)
Theorem get_reader_errors (has_numpy : bool)
  (Reader : option Config.reader_class) (Inputter : option Config.inputter_class)
  (Outputter : option Config.outputter_class) (numpy : bool)
  (kwargs : gmap string Config.arg) :
  let allowed := forall k, is_Some (kwargs !! k) -> k ∈ Config.extra_reader_pars in
  let callable := forall key v, key = "data_Splitter" \/ key = "header_Splitter" ->
                                kwargs !! key ≠ Some (Config.Val v) in
  match Config.get_reader has_numpy Reader Inputter Outputter numpy kwargs with
  | Ok _ => allowed /\ callable
  | Raise e =>
      (e = ValueError "Supplied arg(s) not allowed for get_reader()" /\ ~ allowed) \/
      (e = TypeError "object is not callable" /\ allowed /\ ~ callable)
  end.
Proof.
  intros allowed callable. unfold Config.get_reader.
  destruct (Config.bad_args kwargs) as [|k bad] eqn:Hbad.
  - assert (Hall : allowed) by (unfold allowed; apply reader_bad_args_nil, Hbad).
    do 7 on_val_step. unfold Config.on_class.
    destruct (kwargs !! "data_Splitter") as [[v|cls]|] eqn:Hd; cbn [mbind result_bind bind].
    + right. split; [reflexivity|]. split; [exact Hall|].
      intros Hc. apply (Hc "data_Splitter" v); [left; reflexivity | exact Hd].
    + destruct (kwargs !! "header_Splitter") as [[v|cls']|] eqn:Hh;
        cbn [mbind result_bind bind].
      * right. split; [reflexivity|]. split; [exact Hall|].
        intros Hc. apply (Hc "header_Splitter" v); [right; reflexivity | exact Hh].
      * do 5 on_val_step. split; [exact Hall|].
        intros key v [->| ->]; congruence.
      * do 5 on_val_step. split; [exact Hall|].
        intros key v [->| ->]; congruence.
    + destruct (kwargs !! "header_Splitter") as [[v|cls']|] eqn:Hh;
        cbn [mbind result_bind bind].
      * right. split; [reflexivity|]. split; [exact Hall|].
        intros Hc. apply (Hc "header_Splitter" v); [right; reflexivity | exact Hh].
      * do 5 on_val_step. split; [exact Hall|].
        intros key v [->| ->]; congruence.
      * do 5 on_val_step. split; [exact Hall|].
        intros key v [->| ->]; congruence.
  - left. split; [reflexivity|]. intros Hall.
    apply reader_bad_args_nil in Hall. rewrite Hall in Hbad. discriminate.
Qed.

(** X15. In the reader [get_reader] returns, the outputter is of the
    class passed as [Outputter] when one is; otherwise it is a
    [NumpyOutputter] when numpy is there and asked for, and the
    [BaseOutputter] of the reader if not. The keywords change neither
    that class nor the inputter, which is the one passed as [Inputter]
    or else the reader's own. *)
Theorem get_reader_outputter (has_numpy : bool)
  (Reader : option Config.reader_class) (Inputter : option Config.inputter_class)
  (Outputter : option Config.outputter_class) (numpy : bool)
  (kwargs : gmap string Config.arg) (r : Config.ReaderObj) :
  Config.get_reader has_numpy Reader Inputter Outputter numpy kwargs = Ok r ->
  Config.o_class (Config.outputter r)
  = match Outputter with
    | Some cls => cls
    | None => if has_numpy && numpy then Config.NumpyOutputter else Config.BaseOutputter
    end /\
  Config.inputter r
  = match Inputter with
    | Some cls => cls
    | None => Config.inputter
                (Config.new_reader (default Config.BasicReader Reader))
    end.
Proof.
  intros H. get_reader_steps H. split.
  - kept (fun r => Config.o_class (Config.outputter r)) Hexcl.
    kept (fun r => Config.o_class (Config.outputter r)) Hincl.
    kept (fun r => Config.o_class (Config.outputter r)) Hnames.
    kept (fun r => Config.o_class (Config.outputter r)) Hamask.
    kept (fun r => Config.o_class (Config.outputter r)) Hdmask.
    kept (fun r => Config.o_class (Config.outputter r)) Hhsplit.
    kept (fun r => Config.o_class (Config.outputter r)) Hdsplit.
    kept (fun r => Config.o_class (Config.outputter r)) Hconv.
    kept (fun r => Config.o_class (Config.outputter r)) Hhstart.
    kept (fun r => Config.o_class (Config.outputter r)) Hdend.
    kept (fun r => Config.o_class (Config.outputter r)) Hdstart.
    kept (fun r => Config.o_class (Config.outputter r)) Hquote.
    kept (fun r => Config.o_class (Config.outputter r)) Hcomment.
    kept (fun r => Config.o_class (Config.outputter r)) Hdelim.
    cbn beta in *.
    rewrite Hexcl, Hincl, Hnames, Hamask, Hdmask, Hhsplit, Hdsplit, Hconv, Hhstart,
      Hdend, Hdstart, Hquote, Hcomment, Hdelim.
    destruct Outputter as [cls|]; [destruct Inputter, (has_numpy && numpy); reflexivity|].
    destruct Inputter, (has_numpy && numpy), Reader as [[]|]; reflexivity.
  - kept Config.inputter Hexcl. kept Config.inputter Hincl.
    kept Config.inputter Hnames. kept Config.inputter Hamask.
    kept Config.inputter Hdmask. kept Config.inputter Hhsplit.
    kept Config.inputter Hdsplit. kept Config.inputter Hconv.
    kept Config.inputter Hhstart. kept Config.inputter Hdend.
    kept Config.inputter Hdstart. kept Config.inputter Hquote.
    kept Config.inputter Hcomment. kept Config.inputter Hdelim.
    rewrite Hexcl, Hincl, Hnames, Hamask, Hdmask, Hhsplit, Hdsplit, Hconv, Hhstart,
      Hdend, Hdstart, Hquote, Hcomment, Hdelim.
    destruct Inputter, Outputter, (has_numpy && numpy), Reader as [[]|]; reflexivity.
Qed.

Lemma get_reader_outputter_witness :
  exists r,
    Config.get_reader true (Some Config.DaophotReader) None (Some Config.BaseOutputter) true
      {[ "converters" := Config.Val (Config.PObj "{'x': [int]}") ]} = Ok r /\
    Config.o_class (Config.outputter r) = Config.BaseOutputter /\
    Config.inputter r = Config.ContinuationLinesInputter.
Proof.
  destruct (Config.get_reader true (Some Config.DaophotReader) None
              (Some Config.BaseOutputter) true
              {[ "converters" := Config.Val (Config.PObj "{'x': [int]}") ]})
    as [r|e] eqn:Hget; [|vm_compute in Hget; discriminate].
  exists r. split; [reflexivity|].
  exact (get_reader_outputter _ _ _ _ _ _ _ Hget).
Defined.

(* ===================================================================== *)
(** * Further properties of the guesser and of the user functions *)
(* ===================================================================== *)

(** ** What a guess returns and raises *)

(** X16. A table the guesser returns was read by an attempt: either by
    a candidate of the list, merged with the caller's keywords, whose
    column names pass the test; or, when every candidate was passed
    over, by the caller's own keywords, and then with column names that
    the test rejects. *)
Theorem guess_returns_a_read_table {T : Type}
  (attempt : gmap string Ui.kwval -> result (T * list string))
  (read_kwargs : gmap string Ui.kwval) (dat : T) :
  Ui._guess attempt read_kwargs = Ok dat ->
  (exists c col_names,
      c ∈ Ui.candidates read_kwargs /\
      attempt (Ui.merge_kwargs read_kwargs c) = Ok (dat, col_names) /\
      Ui.rejected col_names = false) \/
  (exists col_names,
      attempt read_kwargs = Ok (dat, col_names) /\
      Ui.rejected col_names = true /\
      Forall (fun c => Spec.passed_over (attempt (Ui.merge_kwargs read_kwargs c)))
        (Ui.candidates read_kwargs)).
Proof.
  unfold Ui._guess.
  destruct (Ui.guess_loop attempt read_kwargs (Ui.candidates read_kwargs)) as [res|] eqn:Hloop.
  - intros ->. left. apply guess_loop_Some in Hloop as (c & Hin & Htry).
    unfold Ui.try_candidate in Htry.
    destruct (attempt (Ui.merge_kwargs read_kwargs c)) as [[dat' col_names]|e] eqn:Ha.
    + destruct (Ui.rejected col_names) eqn:Hr; [discriminate|].
      injection Htry as <-. exists c, col_names. auto.
    + destruct (Ui.caught e); discriminate.
  - intros H. right. apply guess_loop_None in Hloop.
    destruct (attempt read_kwargs) as [[dat' col_names]|e] eqn:Ha.
    + injection H as <-. exists col_names. split; [reflexivity|]. split; [|exact Hloop].
      unfold Ui.candidates in Hloop. cbn [app] in Hloop.
      apply Forall_cons in Hloop as [Hfirst _].
      rewrite merge_kwargs_self, Ha in Hfirst. exact Hfirst.
    + destruct (Ui.caught_last e); discriminate.
Qed.

Lemma guess_returns_a_read_table_witness :
  let read_kwargs : gmap string Ui.kwval := {[ "Outputter" := Ui.VObj "BaseOutputter" ]} in
  let attempt := fun kw : gmap string Ui.kwval =>
    if decide (kw !! "Reader" = Some (Ui.VReader Ui.Tab))
    then Ok ("read as Tab", ["a"; "b"])
    else Raise (InconsistentTableError UnableToGuess) in
  (exists c col_names,
      c ∈ Ui.candidates read_kwargs /\
      attempt (Ui.merge_kwargs read_kwargs c) = Ok ("read as Tab", col_names) /\
      Ui.rejected col_names = false) \/
  (exists col_names,
      attempt read_kwargs = Ok ("read as Tab", col_names) /\
      Ui.rejected col_names = true /\
      Forall (fun c => Spec.passed_over (attempt (Ui.merge_kwargs read_kwargs c)))
        (Ui.candidates read_kwargs)).
Proof.
  intros read_kwargs attempt.
  apply (guess_returns_a_read_table attempt read_kwargs "read as Tab").
  vm_compute. reflexivity.
Defined.

(** X17. With guessing on, [read] never raises [ValueError], and the
    only [InconsistentTableError] it raises is the guesser's own (unable
    to read): those of the attempts are caught, in the loop and at the
    last read. *)
Theorem read_guess_hides_errors {T : Type}
  (attempt : gmap string Ui.kwval -> result (T * list string))
  (has_numpy _GUESS numpy : bool) (guess : option bool)
  (kwargs : gmap string Ui.kwval) (e : exn) :
  default _GUESS guess = true ->
  UiTop.read attempt has_numpy _GUESS numpy guess kwargs = Raise e ->
  match e with
  | ValueError _ => False
  | InconsistentTableError m => m = UnableToGuess
  | _ => True
  end.
Proof.
  intros Hg. unfold UiTop.read.
  replace (match guess with Some g => g | None => _GUESS end) with true
    by (destruct guess; exact (eq_sym Hg)).
  set (kw := UiTop.update _ kwargs). clearbody kw. unfold Ui._guess.
  destruct (Ui.guess_loop attempt kw (Ui.candidates kw)) as [res|] eqn:Hloop.
  - intros ->. apply guess_loop_Some in Hloop as (c & _ & Htry).
    unfold Ui.try_candidate in Htry.
    destruct (attempt (Ui.merge_kwargs kw c)) as [[dat col_names]|e'].
    + destruct (Ui.rejected col_names); discriminate.
    + destruct (Ui.caught e') eqn:Hc; [discriminate|]. injection Htry as ->.
      destruct e; try exact I; discriminate.
  - destruct (attempt kw) as [[dat col_names]|e']; [discriminate|].
    destruct (Ui.caught_last e') eqn:Hc; intros H; injection H as <-.
    + reflexivity.
    + destruct e'; try exact I; discriminate.
Qed.

Lemma read_guess_hides_errors_witness :
  match InconsistentTableError UnableToGuess with
  | ValueError _ => False
  | InconsistentTableError m => m = UnableToGuess
  | _ => True
  end.
Proof.
  apply (read_guess_hides_errors
           (Demo.attempt_with
              (fun _ => Raise (InconsistentTableError (FirstLine 0 1 [] ["x"])))
              ["a|b"; "x"])
           false true true None
           {[ "converters" := Ui.VObj "{'a|b': [int list]}" ]}).
  - reflexivity.
  - vm_compute. reflexivity.
Defined.



(** ** The order of the caller's keywords *)

(** X19. The keywords tried for a candidate do not depend on the order
    in which the caller's dictionary is iterated: any two orders of its
    items merge into the same keywords. *)
Theorem merge_order_irrelevant (items1 items2 : list (string * Ui.kwval))
  (guess_kwargs : gmap string Ui.kwval) :
  NoDup (map fst items1) ->
  items1 ≡ₚ items2 ->
  Ui.merge_items items1 guess_kwargs = Ui.merge_items items2 guess_kwargs.
Proof.
  intros Hnd Hperm. rewrite !merge_items_union.
  rewrite (list_to_map_proper items1 items2 Hnd Hperm). reflexivity.
Qed.

Lemma merge_order_irrelevant_witness :
  Ui.merge_items [("delimiter", Ui.VStr ","); ("Outputter", Ui.VObj "BaseOutputter")]
    {[ "Reader" := Ui.VReader Ui.Rdb; "delimiter" := Ui.VStr "|" ]}
  = Ui.merge_items [("Outputter", Ui.VObj "BaseOutputter"); ("delimiter", Ui.VStr ",")]
      {[ "Reader" := Ui.VReader Ui.Rdb; "delimiter" := Ui.VStr "|" ]}.
Proof.
  apply merge_order_irrelevant.
  - repeat constructor; set_solver.
  - apply Permutation_swap.
Defined.

(** ** [get_writer] *)

Lemma writer_bad_args_nil (kwargs : gmap string Ui.kwval) :
  UiTop.bad_args kwargs = []
  <-> forall k, is_Some (kwargs !! k) -> k ∈ UiTop.extra_writer_pars.
Proof.
  unfold UiTop.bad_args. rewrite filter_nil_Forall, Forall_forall. split.
  - intros H k [v Hk]. destruct (decide (k ∈ UiTop.extra_writer_pars)) as [|Hn]; [assumption|].
    exfalso. apply (H k); [|exact Hn].
    apply list_elem_of_fmap. exists (k, v). split; [reflexivity|].
    apply elem_of_map_to_list, Hk.
  - intros H k Hin Hn. apply Hn, H.
    apply list_elem_of_fmap in Hin as ([k' v] & -> & Hin).
    apply elem_of_map_to_list in Hin. eauto.
Qed.

Lemma on_key_insert_ne kwargs key k v f w :
  k ≠ key -> UiTop.on_key (<[k := v]> kwargs) key f w = UiTop.on_key kwargs key f w.
Proof. intros Hne. unfold UiTop.on_key. rewrite lookup_insert_ne by exact Hne. reflexivity. Qed.

Lemma on_key_proj {X} (proj : UiTop.Writer -> X) kwargs key f w :
  (forall v w0, proj (f v w0) = proj w0) ->
  proj (UiTop.on_key kwargs key f w) = proj w.
Proof. intros Hf. unfold UiTop.on_key. destruct (kwargs !! key); auto. Qed.

Lemma on_key_absent kwargs key f w :
  kwargs !! key = None -> UiTop.on_key kwargs key f w = w.
Proof. intros Hk. unfold UiTop.on_key. rewrite Hk. reflexivity. Qed.

(** X20. [get_writer] never sets the comment of the writer: the keyword
    [write_comment] its body looks for is not among the recognized ones,
    so a call that has it raises [ValueError], and the recognized
    keyword [comment] is accepted and changes nothing. *)
Theorem get_writer_never_sets_comment (writer writer' : UiTop.Writer)
  (kwargs : gmap string Ui.kwval) :
  UiTop.get_writer writer kwargs = Ok writer' ->
  kwargs !! "write_comment" = None /\
  UiTop.header_write_comment writer' = UiTop.header_write_comment writer /\
  UiTop.data_write_comment writer' = UiTop.data_write_comment writer /\
  (forall v, UiTop.get_writer writer (<["comment" := v]> kwargs) = Ok writer') /\
  (forall v, UiTop.get_writer writer (<["write_comment" := v]> kwargs)
             = Raise (ValueError "Supplied arg(s) not allowed for get_writer()")).
Proof.
  intros H. unfold UiTop.get_writer in H.
  destruct (UiTop.bad_args kwargs) as [|k bad] eqn:Hbad; [|discriminate].
  assert (Hall : forall k, is_Some (kwargs !! k) -> k ∈ UiTop.extra_writer_pars)
    by (apply writer_bad_args_nil, Hbad).
  assert (Hwc : kwargs !! "write_comment" = None).
  { destruct (kwargs !! "write_comment") as [v|] eqn:E; [|reflexivity].
    exfalso. specialize (Hall "write_comment" (ex_intro _ v E)).
    unfold UiTop.extra_writer_pars in Hall. set_solver. }
  injection H as <-.
  split; [exact Hwc|]. split; [|split; [|split]].
  - rewrite (on_key_absent kwargs "write_comment") by exact Hwc.
    rewrite !(on_key_proj UiTop.header_write_comment) by (intros; reflexivity).
    reflexivity.
  - rewrite (on_key_absent kwargs "write_comment") by exact Hwc.
    rewrite !(on_key_proj UiTop.data_write_comment) by (intros; reflexivity).
    reflexivity.
  - intros v. unfold UiTop.get_writer.
    assert (Hbad' : UiTop.bad_args (<["comment" := v]> kwargs) = []).
    { apply writer_bad_args_nil. intros k0 Hk0.
      destruct (decide (k0 = "comment")) as [->|Hne].
      - unfold UiTop.extra_writer_pars. set_solver.
      - rewrite lookup_insert_ne in Hk0 by congruence. apply Hall, Hk0. }
    rewrite Hbad'. rewrite !on_key_insert_ne by discriminate. reflexivity.
  - intros v. unfold UiTop.get_writer.
    destruct (UiTop.bad_args (<["write_comment" := v]> kwargs)) as [|k0 bad0] eqn:Hbad';
      [|reflexivity].
    exfalso.
    pose proof (proj1 (writer_bad_args_nil _) Hbad' "write_comment") as Hin.
    rewrite lookup_insert_eq in Hin. specialize (Hin (ex_intro _ v eq_refl)).
    unfold UiTop.extra_writer_pars in Hin. set_solver.
Qed.

Lemma get_writer_never_sets_comment_witness :
  let writer := UiTop.mkWriter (Ui.VStr " ") (Ui.VStr " ") (Ui.VStr "# ") (Ui.VStr "# ")
                  (Ui.VStr "'") (Ui.VStr "'") (Ui.VObj "{}")
                  (Ui.VObj "None") (Ui.VObj "None") (Ui.VObj "None") in
  let writer' := UiTop.mkWriter (Ui.VStr ",") (Ui.VStr ",") (Ui.VStr "# ") (Ui.VStr "# ")
                   (Ui.VStr "'") (Ui.VStr "'") (Ui.VObj "{}")
                   (Ui.VObj "None") (Ui.VObj "None") (Ui.VObj "None") in
  UiTop.get_writer writer {[ "delimiter" := Ui.VStr ","; "comment" := Ui.VStr "%" ]}
  = Ok writer' /\
  UiTop.get_writer writer {[ "delimiter" := Ui.VStr ","; "write_comment" := Ui.VStr "%" ]}
  = Raise (ValueError "Supplied arg(s) not allowed for get_writer()").
Proof.
  intros writer writer'.
  destruct (get_writer_never_sets_comment writer writer' {[ "delimiter" := Ui.VStr "," ]})
    as (_ & _ & _ & Hcomment & Hwc); [vm_compute; reflexivity|].
  split.
  - rewrite <- (Hcomment (Ui.VStr "%")). reflexivity.
  - rewrite <- (Hwc (Ui.VStr "%")). reflexivity.
Defined.
